(** * Extraction of Egyptian mobile numbers from company records

    A shallow embedding of [is_valid_egyptian_mobile] and
    [extract_mobile_numbers] of the phone extraction script, with the
    Python operations they rely on ([in], subscripting, [dict.get],
    [str], [re.sub], [re.findall], [try]/[except]) written out. *)

From Stdlib Require Import List NArith ZArith Bool String Ascii Lia.
From Stdlib Require Import DecimalString.
Import ListNotations.

Set Warnings "-register-all".

(** ** Python strings

    A Python [str] is a sequence of Unicode code points.  The records
    carry Arabic text, so characters are code points rather than bytes. *)

Definition pystr := list N.

(** An ASCII literal of the source, as code points. *)
Definition lit (s : string) : pystr :=
  map N_of_ascii (list_ascii_of_string s).

Fixpoint pystr_eqb (a b : pystr) : bool :=
  match a, b with
  | [], [] => true
  | x :: a', y :: b' => N.eqb x y && pystr_eqb a' b'
  | _, _ => false
  end.

(** [s.startswith(p)] *)
Fixpoint startswith (s p : pystr) {struct p} : bool :=
  match p with
  | [] => true
  | c :: p' =>
      match s with
      | [] => false
      | d :: s' => N.eqb c d && startswith s' p'
      end
  end.

(** [needle in hay] for two strings: substring test. *)
Fixpoint str_contains (needle hay : pystr) : bool :=
  startswith hay needle ||
  match hay with
  | [] => false
  | _ :: hay' => str_contains needle hay'
  end.

(** ** Exceptions and results *)

Inductive exn : Set :=
| FileNotFoundError
| JSONDecodeError
| OSError
| TypeError
| KeyError
| AttributeError
| UnicodeEncodeError.

Inductive result (A : Type) : Type :=
| Ok (a : A)
| Raise (e : exn).

Arguments Ok {A} a.
Arguments Raise {A} e.

Definition bind {A B} (m : result A) (k : A -> result B) : result B :=
  match m with
  | Ok a => k a
  | Raise e => Raise e
  end.

Notation "x <- m ;; k" := (bind m (fun x => k))
  (at level 61, m at next level, right associativity).

(** ** Text output

    The console and the files take UTF-8 with Python's strict error
    handling (the files by [encoding='utf-8'], the console as a UTF-8
    terminal gives it): a text goes out unless it holds a lone
    surrogate, which [json.load] lets through from an escape such as
    [\ud83d]; then [print] and [file.write] raise. *)

Definition is_surrogate (c : N) : bool := ((55296 <=? c) && (c <=? 57343))%N.

Definition utf8_encodable (text : pystr) : bool :=
  forallb (fun c => negb (is_surrogate c)) text.

(** [print(text)] *)
Definition py_print (text : pystr) : result unit :=
  if utf8_encodable text then Ok tt else Raise UnicodeEncodeError.

(** ** JSON values as [json.load] builds them

    A [float] is carried by its [repr] text, which determines it.  A
    [dict] is an association list; Python dictionaries have distinct
    keys, so looking up the first binding is looking up the binding. *)

Inductive json : Type :=
| JNull
| JBool (b : bool)
| JInt (n : Z)
| JFloat (text : pystr)
| JStr (s : pystr)
| JList (items : list json)
| JDict (fields : list (pystr * json)).

Fixpoint lookup (key : pystr) (fields : list (pystr * json)) : option json :=
  match fields with
  | [] => None
  | (k, v) :: rest => if pystr_eqb key k then Some v else lookup key rest
  end.

(** [key == x] for a string [key] and any value [x]. *)
Definition str_equals (key : pystr) (x : json) : bool :=
  match x with
  | JStr s => pystr_eqb key s
  | _ => false
  end.

(** [key in container] *)
Definition py_contains (key : pystr) (container : json) : result bool :=
  match container with
  | JDict fields =>
      Ok (match lookup key fields with Some _ => true | None => false end)
  | JList items => Ok (existsb (str_equals key) items)
  | JStr s => Ok (str_contains key s)
  | JNull | JBool _ | JInt _ | JFloat _ => Raise TypeError
  end.

(** [container[key]] for a string [key] *)
Definition py_getitem (container : json) (key : pystr) : result json :=
  match container with
  | JDict fields =>
      match lookup key fields with
      | Some v => Ok v
      | None => Raise KeyError
      end
  | _ => Raise TypeError
  end.

(** [obj.get(key, default)] *)
Definition py_get (obj : json) (key : pystr) (default : json) : result json :=
  match obj with
  | JDict fields =>
      Ok (match lookup key fields with Some v => v | None => default end)
  | _ => Raise AttributeError
  end.

(** [for x in obj] *)
Definition py_iter (obj : json) : result (list json) :=
  match obj with
  | JList items => Ok items
  | JDict fields => Ok (map (fun kv => JStr (fst kv)) fields)
  | JStr s => Ok (map (fun c => JStr [c]) s)
  | JNull | JBool _ | JInt _ | JFloat _ => Raise TypeError
  end.

(** [isinstance(x, list)] *)
Definition isinstance_list (x : json) : bool :=
  match x with
  | JList _ => true
  | _ => false
  end.

(** [str(n)] for an integer *)
Definition str_of_int (n : Z) : pystr :=
  lit (NilZero.string_of_int (Z.to_int n)).

(** ** Result entries *)

Record valid_entry : Type := mk_valid {
  v_name : json;
  v_phone : pystr;
  v_id : json
}.

Record invalid_entry : Type := mk_invalid {
  i_name : json;
  i_phone : pystr;
  i_reason : pystr
}.

Definition state : Type := (list valid_entry * list invalid_entry)%type.

(** The string constants of the source. *)
Definition name_default : pystr :=
  [1594; 1610; 1585; 32; 1605; 1581; 1583; 1583]%N.

Definition reason_invalid : pystr :=
  [1594; 1610; 1585; 32; 1589; 1581; 1610; 1581]%N.

Definition valid_prefixes : list pystr :=
  [lit "010"; lit "011"; lit "012"; lit "015"].

(** The two constant parts of the text of line 58. *)
Definition checking_label : pystr :=
  [1601; 1581; 1589; 32; 1575; 1604; 1585; 1602; 1605; 58; 32]%N.

Definition company_label : pystr :=
  [32; 1604; 1604; 1588; 1585; 1603; 1577; 58; 32]%N.

Definition ascii_digit (c : N) : bool := ((48 <=? c) && (c <=? 57))%N.

Section Runtime.

(** The two parts of the Python runtime the script leans on and does
    not define: the decimal digits outside ASCII that [\d] matches in
    a [str] pattern, and [repr] of lists and dictionaries. *)
Variable unicode_Nd : N -> bool.
Variable py_repr : json -> pystr.

(** [\d] *)
Definition is_digit (c : N) : bool :=
  ascii_digit c || ((128 <=? c)%N && unicode_Nd c).

(** [re.sub(r'[^\d]', '', phone)] *)
Definition strip_non_digits (phone : pystr) : pystr :=
  filter is_digit phone.

Definition is_valid_egyptian_mobile (phone : pystr) : bool :=
  let phone := strip_non_digits phone in
  if negb (List.length phone =? 11)%nat then false
  else existsb (fun prefix => startswith phone prefix) valid_prefixes.

(** [\d{11}] matches at the head of [s]. *)
Definition match_d11 (s : pystr) : bool :=
  (List.length (firstn 11 s) =? 11)%nat && forallb is_digit (firstn 11 s).

(** [re.findall(r'\d{11}', s)]: the scan tries each position from the
    left; after a match it resumes behind the match.  [skip] counts the
    characters of the last match still to step over. *)
Fixpoint findall_from (skip : nat) (s : pystr) : list pystr :=
  match s with
  | [] => []
  | _ :: s' =>
      match skip with
      | S k => findall_from k s'
      | O =>
          if match_d11 s then firstn 11 s :: findall_from 10 s'
          else findall_from 0 s'
      end
  end.

Definition findall_d11 (s : pystr) : list pystr := findall_from 0 s.

(** A digit run ends before [post]: the text is over, or a character
    that is no digit follows. *)
Definition stops (post : pystr) : Prop :=
  post = [] \/ exists c post', post = c :: post' /\ is_digit c = false.

(** [str(x)] *)
Definition py_str (x : json) : pystr :=
  match x with
  | JStr s => s
  | JInt n => str_of_int n
  | JBool true => lit "True"
  | JBool false => lit "False"
  | JNull => lit "None"
  | JFloat text => text
  | JList _ | JDict _ => py_repr x
  end.

(** The text of line 58: the phone text and the name, each as [str]
    gives it. *)
Definition checking_line (phone : pystr) (company_name : json) : pystr :=
  checking_label ++ phone ++ company_label ++ py_str company_name.

(** The inner loop, lines 63-77.  Its prints (lines 70 and 77) show a
    capture, a part of the phone text that line 58 has shown already. *)
Fixpoint for_phones (company name : json) (phones : list pystr) (st : state)
  : result state :=
  match phones with
  | [] => Ok st
  | single_phone :: rest =>
      if is_valid_egyptian_mobile single_phone then
        id <- py_get company (lit "id") (JStr (lit "N/A")) ;;
        for_phones company name rest
          (fst st ++ [mk_valid name single_phone id], snd st)
      else
        for_phones company name rest
          (fst st, snd st ++ [mk_invalid name single_phone reason_invalid])
  end.

(** The body of the outer loop, lines 54-77, with the print of line 58,
    the first to show the phone text and the name of the record. *)
Definition process_company (st : state) (company : json) : result state :=
  has_info <- py_contains (lit "contact_info") company ;;
  has_phone <-
    (if has_info : bool then
       info <- py_getitem company (lit "contact_info") ;;
       py_contains (lit "phone") info
     else Ok false) ;;
  if has_phone : bool then
    info <- py_getitem company (lit "contact_info") ;;
    raw <- py_getitem info (lit "phone") ;;
    let phone := py_str raw in
    company_name <-
      py_get company (lit "company_name_arabic") (JStr name_default) ;;
    _ <- py_print (checking_line phone company_name) ;;
    for_phones company company_name (findall_d11 phone) st
  else Ok st.

Fixpoint for_companies (companies : list json) (st : state) : result state :=
  match companies with
  | [] => Ok st
  | company :: rest =>
      st' <- process_company st company ;;
      for_companies rest st'
  end.

(** Lines 47-79: both lists as they stand when the scan is over.  The
    prints of lines 52 and 79 show constant text and a count; those of
    lines 81-83 show names and phones that line 58 has shown. *)
Definition scan (data : json) : result state :=
  has_companies <- py_contains (lit "companies") data ;;
  is_list <-
    (if has_companies : bool then
       companies <- py_getitem data (lit "companies") ;;
       Ok (isinstance_list companies)
     else Ok false) ;;
  if is_list : bool then
    companies <- py_getitem data (lit "companies") ;;
    items <- py_iter companies ;;
    for_companies items ([], [])
  else Ok ([], []).

(** The [try] block: [loaded] is what [open] and [json.load] gave.  Of
    the two lists only [valid_numbers] is returned; [invalid_numbers]
    is printed and dropped. *)
Definition try_block (loaded : result json) : result (list valid_entry) :=
  data <- loaded ;;
  st <- scan data ;;
  Ok (fst st).

(** The [except] clauses: each of them returns the empty list, and
    every exception of the block is an [Exception].  What they print is
    constant text, the name of the file, and the message of the
    exception, which shows a character it complains of in escaped
    form. *)
Definition extract_mobile_numbers (loaded : result json)
  : result (list valid_entry) :=
  match try_block loaded with
  | Ok valid_numbers => Ok valid_numbers
  | Raise FileNotFoundError => Ok []
  | Raise JSONDecodeError => Ok []
  | Raise _ => Ok []
  end.

End Runtime.

(** ** Digit runs

    The words the description of the scan uses: the maximal digit runs
    of a text, and the two ways of taking numbers out of them. *)

Section Runs.

Variable unicode_Nd : N -> bool.

Definition emit (run : pystr) : list pystr :=
  match run with
  | [] => []
  | _ :: _ => [run]
  end.

(** [run] is the digit run open at the left of [s]. *)
Fixpoint runs_acc (run s : pystr) : list pystr :=
  match s with
  | [] => emit run
  | c :: s' =>
      if is_digit unicode_Nd c then runs_acc (run ++ [c]) s'
      else emit run ++ runs_acc [] s'
  end.

(** The maximal contiguous digit runs of [s], left to right. *)
Definition digit_runs (s : pystr) : list pystr := runs_acc [] s.

(** Spec reading of the scan: the maximal runs of exactly eleven
    digits. *)
Definition runs_of_eleven (s : pystr) : list pystr :=
  filter (fun run => (List.length run =? 11)%nat) (digit_runs s).

(** The consecutive blocks of eleven characters of [run], from its
    start; what is left over at the end is dropped. *)
Fixpoint blocks (fuel : nat) (run : pystr) : list pystr :=
  match fuel with
  | O => []
  | S fuel' =>
      if (11 <=? List.length run)%nat
      then firstn 11 run :: blocks fuel' (skipn 11 run)
      else []
  end.

Definition blocks11 (run : pystr) : list pystr :=
  blocks (List.length run) run.

(** Eleven characters, each of them matched by [\d]. *)
Definition eleven_digits (p : pystr) : Prop :=
  List.length p = 11 /\ forallb (is_digit unicode_Nd) p = true.

(** No character of [s] is matched by [\d]. *)
Definition no_digit (s : pystr) : bool :=
  forallb (fun c => negb (is_digit unicode_Nd c)) s.

End Runs.

(** [p] starts with 010, 011, 012 or 015. *)
Definition has_valid_prefix (p : pystr) : Prop :=
  exists prefix rest, In prefix valid_prefixes /\ p = prefix ++ rest.

(** ** Shapes of the input *)

(** The structure line 51 asks for: a mapping whose [companies] entry is
    a list. *)
Definition well_shaped (data : json) : Prop :=
  exists fields items,
    data = JDict fields /\ lookup (lit "companies") fields = Some (JList items).

(** A record that is a mapping and has no [contact_info] entry, or whose
    [contact_info] is a mapping with no [phone] entry, or a list or a
    string in which 'phone' does not occur. *)
Definition lacks_phone (company : json) : bool :=
  match company with
  | JDict fields =>
      match lookup (lit "contact_info") fields with
      | None => true
      | Some (JDict info) =>
          match lookup (lit "phone") info with
          | None => true
          | Some _ => false
          end
      | Some (JList items) => negb (existsb (str_equals (lit "phone")) items)
      | Some (JStr s) => negb (str_contains (lit "phone") s)
      | Some _ => false
      end
  | _ => false
  end.

(** [company.get('company_name_arabic', ...)] and [company.get('id', 'N/A')]
    on a mapping. *)
Definition name_of (fields : list (pystr * json)) : json :=
  match lookup (lit "company_name_arabic") fields with
  | Some v => v
  | None => JStr name_default
  end.

Definition id_of (fields : list (pystr * json)) : json :=
  match lookup (lit "id") fields with
  | Some v => v
  | None => JStr (lit "N/A")
  end.

(** What a run of the loop that adds [added] to empty lists adds to the
    lists of [st]. *)
Definition shift (st : state) (r : result state) : result state :=
  match r with
  | Ok added => Ok (fst st ++ fst added, snd st ++ snd added)
  | Raise e => Raise e
  end.

(** ** Inputs of the scenarios *)

Definition record (id : Z) (name phone : string) : json :=
  JDict [ (lit "id", JInt id);
          (lit "company_name_arabic", JStr (lit name));
          (lit "contact_info", JDict [ (lit "phone", JStr (lit phone)) ]) ].

Definition collection (records : list json) : json :=
  JDict [ (lit "companies", JList records) ].

Definition acme : json := record 1 "Acme" "01123456789".
Definition beta : json := record 2 "Beta" "09912345678".
Definition gamma : json := record 3 "Gamma" "0101234567801112345678".

(** Twelve digits in a row. *)
Definition delta : json := record 4 "Delta" "010123456789".

(** One number written with dashes. *)
Definition dashed : json := record 5 "Epsilon" "010-1234-5678".

(** Records without a phone number. *)
Definition no_contact : json :=
  JDict [ (lit "id", JInt 6); (lit "company_name_arabic", JStr (lit "Zeta")) ].

Definition null_contact : json :=
  JDict [ (lit "id", JInt 7); (lit "contact_info", JNull) ].

(** The runtime tables at which the concrete runs below are evaluated:
    no digit beyond ASCII, and an empty [repr]. *)
Definition ascii_only : N -> bool := fun _ => false.
Definition no_repr : json -> pystr := fun _ => [].

(** ** Output files

    [save_results] and [main] write text files.  The file system is the
    list of the files written, the latest first, over whatever was there
    before; [open(name, 'w')] either succeeds and replaces the file or
    raises.  A [file.write] that raises leaves in the file what was
    written before it. *)

Definition files : Type := list (pystr * pystr).

Fixpoint read (name : pystr) (fs : files) : option pystr :=
  match fs with
  | [] => None
  | (n, content) :: rest => if pystr_eqb name n then Some content else read name rest
  end.

Definition write_file (name content : pystr) (fs : files) : files :=
  (name, content) :: fs.

Definition nl : pystr := [10]%N.

(** What a file holds after [file.write] was called on each of [texts]
    in turn: the texts up to the first that cannot be encoded. *)
Fixpoint written (texts : list pystr) : pystr :=
  match texts with
  | [] => []
  | text :: rest =>
      if utf8_encodable text then text ++ written rest else []
  end.

(** The string constants of lines 107, 108 and 113. *)
Definition report_title : pystr :=
  [1571; 1585; 1602; 1575; 1605; 32; 1575; 1604; 1607; 1608; 1575; 1578;
   1601; 32; 1575; 1604; 1605; 1581; 1605; 1608; 1604; 1577; 32; 1575;
   1604; 1589; 1581; 1610; 1581; 1577; 10]%N.

Definition report_rule : pystr := repeat 61%N 40 ++ [10; 10]%N.

Definition report_total_label : pystr :=
  [10; 1573; 1580; 1605; 1575; 1604; 1610; 32; 1575; 1604; 1571; 1585;
   1602; 1575; 1605; 32; 1575; 1604; 1589; 1581; 1610; 1581; 1577; 58;
   32]%N.

Definition default_output_file : pystr := lit "valid_mobile_numbers.txt".
Definition numbers_only_file : pystr := lit "mobile_numbers_only.txt".

(** [str(i)] for a count or an index *)
Definition str_of_nat (i : nat) : pystr := str_of_int (Z.of_nat i).

Section Output.

Variable unicode_Nd : N -> bool.
Variable py_repr : json -> pystr.

(** Whether [open(name, 'w')] succeeds. *)
Variable writable : pystr -> bool.

(** Line 111: the text written for the entry numbered [i]. *)
Definition report_line (i : nat) (number : valid_entry) : pystr :=
  str_of_nat i ++ lit ". " ++ py_str py_repr (v_name number)
  ++ lit " - " ++ v_phone number ++ nl.

(** [for i, number in enumerate(numbers, i)] *)
Fixpoint report_lines (i : nat) (numbers : list valid_entry) : list pystr :=
  match numbers with
  | [] => []
  | number :: rest => report_line i number :: report_lines (S i) rest
  end.

(** The calls of [file.write] of lines 107-113, in order. *)
Definition report_writes (numbers : list valid_entry) : list pystr :=
  [report_title; report_rule]
  ++ report_lines 1 numbers
  ++ [report_total_label ++ str_of_nat (List.length numbers) ++ nl].

(** The whole report. *)
Definition report_text (numbers : list valid_entry) : pystr :=
  report_title ++ report_rule
  ++ List.concat (report_lines 1 numbers)
  ++ report_total_label ++ str_of_nat (List.length numbers) ++ nl.

(** [save_results]: a failure to open the file, or to write to it, is
    caught and reported on the console; nothing is raised, and the file
    holds what was written before the failure. *)
Definition save_results (numbers : list valid_entry) (output_file : pystr)
           (fs : files) : files :=
  if writable output_file
  then write_file output_file (written (report_writes numbers)) fs
  else fs.

(** Lines 150-152: one phone per line. *)
Definition numbers_only_text (numbers : list valid_entry) : pystr :=
  List.concat (map (fun number => v_phone number ++ nl) numbers).

(** The name and the phone of an entry can be written. *)
Definition entry_encodable (number : valid_entry) : bool :=
  utf8_encodable (py_str py_repr (v_name number))
  && utf8_encodable (v_phone number).

(** [main]: [file_exists] is the answer of [os.path.exists], [loaded]
    what [open] and [json.load] give inside [extract_mobile_numbers].
    The result is the file system main leaves and the exception that
    leaves main, if any.  The entries main prints (line 144) and the
    phones it writes (line 152) are those [extract_mobile_numbers]
    returned, whose names and phone texts line 58 has shown. *)
Definition main (file_exists : bool) (loaded : result json) (fs : files)
  : files * option exn :=
  if negb file_exists then (fs, None)
  else
    match extract_mobile_numbers unicode_Nd py_repr loaded with
    | Raise e => (fs, Some e)
    | Ok [] => (fs, None)
    | Ok valid_numbers =>
        let fs := save_results valid_numbers default_output_file fs in
        if writable numbers_only_file
        then (write_file numbers_only_file
                         (numbers_only_text valid_numbers) fs, None)
        else (fs, Some OSError)
    end.

End Output.

(** Files that can all be opened, and a file system with one stale
    report in it. *)
Definition all_writable : pystr -> bool := fun _ => true.
Definition stale : files := [ (numbers_only_file, lit "01000000000") ].

(** A table of digits that holds the Arabic-Indic ones, U+0660 to
    U+0669, and a record whose phone is 010 followed by eight of them. *)
Definition arabic_indic : N -> bool :=
  fun c => ((1632 <=? c) && (c <=? 1641))%N.

Definition eastern_phone : pystr :=
  lit "010" ++ [1633; 1634; 1635; 1636; 1637; 1638; 1639; 1640]%N.

Definition eastern : json :=
  JDict [ (lit "id", JInt 10);
          (lit "company_name_arabic", JStr (lit "Iota"));
          (lit "contact_info", JDict [ (lit "phone", JStr eastern_phone) ]) ].

(** A record with a lone surrogate, U+D83D, for a name. *)
Definition surrogate_name : json :=
  JDict [ (lit "id", JInt 11);
          (lit "company_name_arabic", JStr [55357%N]);
          (lit "contact_info",
           JDict [ (lit "phone", JStr (lit "01012345678")) ]) ].

(** * Properties *)

Section Strings.

Lemma pystr_eqb_refl (a : pystr) : pystr_eqb a a = true.
Proof.
  induction a as [|x a IH]; simpl; [reflexivity|].
  now rewrite N.eqb_refl, IH.
Qed.


Lemma startswith_iff (s p : pystr) :
  startswith s p = true <-> exists rest, s = p ++ rest.
Proof.
  revert s; induction p as [|c p IH]; intros s; simpl.
  - split; [intros _; now exists s | reflexivity].
  - destruct s as [|d s].
    + split; [discriminate | intros [rest H]; discriminate].
    + rewrite andb_true_iff, N.eqb_eq, IH. split.
      * intros [-> [rest ->]]. now exists rest.
      * intros [rest H]. injection H as -> ->. split; [reflexivity | now exists rest].
Qed.

End Strings.

(** ** The validator *)

Section Validator.

Variable unicode_Nd : N -> bool.

Lemma ascii_digit_is_digit (c : N) :
  ascii_digit c = true -> is_digit unicode_Nd c = true.
Proof. unfold is_digit. now intros ->. Qed.

Lemma strip_digits_fixed (d : pystr) :
  forallb (is_digit unicode_Nd) d = true -> strip_non_digits unicode_Nd d = d.
Proof.
  unfold strip_non_digits. induction d as [|c d IH]; simpl; [reflexivity|].
  intros H. apply andb_true_iff in H as [Hc Hd].
  now rewrite Hc, IH.
Qed.

Lemma ascii_digits_are_digits (d : pystr) :
  forallb ascii_digit d = true -> forallb (is_digit unicode_Nd) d = true.
Proof.
  rewrite !forallb_forall. auto using ascii_digit_is_digit.
Qed.

Lemma strip_is_digits (s : pystr) :
  forallb (is_digit unicode_Nd) (strip_non_digits unicode_Nd s) = true.
Proof.
  apply forallb_forall. intros c Hc.
  now apply filter_In in Hc.
Qed.

Lemma strip_idempotent (s : pystr) :
  strip_non_digits unicode_Nd (strip_non_digits unicode_Nd s)
  = strip_non_digits unicode_Nd s.
Proof. apply strip_digits_fixed, strip_is_digits. Qed.

Lemma existsb_prefix_iff (s : pystr) :
  existsb (fun prefix => startswith s prefix) valid_prefixes = true <->
  exists prefix rest, In prefix valid_prefixes /\ s = prefix ++ rest.
Proof.
  rewrite existsb_exists. split.
  - intros [p [Hin Hp]]. apply startswith_iff in Hp as [rest ->].
    now exists p, rest.
  - intros [p [rest [Hin ->]]]. exists p. split; [assumption|].
    apply startswith_iff. now exists rest.
Qed.

(** The validator on a string that is already digits only. *)
Lemma is_valid_of_digits (d : pystr) :
  forallb (is_digit unicode_Nd) d = true ->
  is_valid_egyptian_mobile unicode_Nd d =
  (List.length d =? 11)%nat &&
  existsb (fun prefix => startswith d prefix) valid_prefixes.
Proof.
  intros H. unfold is_valid_egyptian_mobile.
  rewrite (strip_digits_fixed _ H).
  now destruct (List.length d =? 11)%nat.
Qed.

(** C1: on a string of eleven digits 0-9 the validator answers true
    exactly when the string starts with 010, 011, 012 or 015, and on a
    string of digits 0-9 of any other length it answers false. *)
Theorem is_valid_on_digit_strings (d : pystr) :
  forallb ascii_digit d = true ->
  (List.length d = 11 ->
   (is_valid_egyptian_mobile unicode_Nd d = true <->
    exists prefix rest, In prefix valid_prefixes /\ d = prefix ++ rest))
  /\ (List.length d <> 11 -> is_valid_egyptian_mobile unicode_Nd d = false).
Proof.
  intros Hd. apply ascii_digits_are_digits in Hd.
  rewrite (is_valid_of_digits _ Hd). split; intros Hlen.
  - rewrite Hlen. simpl andb. apply existsb_prefix_iff.
  - apply Nat.eqb_neq in Hlen. now rewrite Hlen.
Qed.

(** C9: the validator strips the non-digits of its argument itself, so
    its answer on any string is its answer on the stripped string; the
    thirteen characters 010-1234-5678 are accepted. *)
Theorem is_valid_strips_its_argument :
  (forall s : pystr,
      is_valid_egyptian_mobile unicode_Nd s
      = is_valid_egyptian_mobile unicode_Nd (strip_non_digits unicode_Nd s))
  /\ List.length (lit "010-1234-5678") <> 11
  /\ strip_non_digits unicode_Nd (lit "010-1234-5678") = lit "01012345678"
  /\ is_valid_egyptian_mobile unicode_Nd (lit "010-1234-5678") = true.
Proof.
  split; [|split; [|split]].
  - intros s. unfold is_valid_egyptian_mobile.
    now rewrite strip_idempotent.
  - discriminate.
  - reflexivity.
  - reflexivity.
Qed.

End Validator.

Lemma is_valid_on_digit_strings_witness :
  forallb ascii_digit (lit "01012345678") = true /\
  is_valid_egyptian_mobile ascii_only (lit "01012345678") = true /\
  is_valid_egyptian_mobile ascii_only (lit "0101234567") = false.
Proof.
  split; [reflexivity|]. split.
  - apply (proj1 (is_valid_on_digit_strings ascii_only (lit "01012345678") eq_refl)).
    + reflexivity.
    + exists (lit "010"), (lit "12345678"). split; [left|]; reflexivity.
  - apply (proj2 (is_valid_on_digit_strings ascii_only (lit "0101234567") eq_refl)).
    discriminate.
Defined.

(** ** The scan for eleven digits *)

Section Scanner.

Variable unicode_Nd : N -> bool.

Local Abbreviation digit := (is_digit unicode_Nd).
Local Abbreviation findall := (findall_d11 unicode_Nd).
Local Abbreviation matches := (match_d11 unicode_Nd).
Local Abbreviation stops := (stops unicode_Nd).

Lemma findall_from_skipn (s : pystr) :
  forall k, findall_from unicode_Nd k s = findall (skipn k s).
Proof.
  unfold findall_d11.
  induction s as [|c s IH]; intros [|k]; try reflexivity.
  simpl. apply IH.
Qed.

Lemma findall_cons (c : N) (s : pystr) :
  findall (c :: s) =
  if matches (c :: s) then firstn 11 (c :: s) :: findall (skipn 11 (c :: s))
  else findall s.
Proof.
  unfold findall_d11 at 1. cbn [findall_from].
  destruct (matches (c :: s)); [|reflexivity].
  now rewrite findall_from_skipn.
Qed.

Lemma matches_iff (s : pystr) :
  matches s = true <->
  exists d rest, s = d ++ rest /\ List.length d = 11 /\ forallb digit d = true.
Proof.
  unfold match_d11. rewrite andb_true_iff, Nat.eqb_eq. split.
  - intros [Hlen Hd]. exists (firstn 11 s), (skipn 11 s).
    now rewrite firstn_skipn.
  - intros [d [rest [-> [Hlen Hd]]]].
    assert (firstn 11 (d ++ rest) = d) as ->; [|now split].
    rewrite <- Hlen. rewrite firstn_app, Nat.sub_diag, firstn_all. simpl.
    apply app_nil_r.
Qed.

(** A match is captured and the scan resumes behind it. *)
Lemma findall_block (d rest : pystr) :
  List.length d = 11 -> forallb digit d = true ->
  findall (d ++ rest) = d :: findall rest.
Proof.
  intros Hlen Hd.
  assert (Hm : matches (d ++ rest) = true)
    by (apply matches_iff; now exists d, rest).
  destruct d as [|c d]; [discriminate|].
  change ((c :: d) ++ rest) with (c :: (d ++ rest)) in *.
  rewrite findall_cons, Hm.
  change (c :: d ++ rest) with ((c :: d) ++ rest).
  rewrite <- Hlen at 1 2.
  rewrite firstn_app, skipn_app, Nat.sub_diag, firstn_all, skipn_all.
  simpl. now rewrite app_nil_r.
Qed.

(** A character that is no digit is stepped over. *)
Lemma findall_non_digit (c : N) (s : pystr) :
  digit c = false -> findall (c :: s) = findall s.
Proof.
  intros Hc. rewrite findall_cons.
  unfold match_d11. simpl. rewrite Hc. simpl.
  now rewrite andb_false_r.
Qed.

(** Where the text ends, or a non-digit stands, within the next eleven
    characters, there is no match. *)
Lemma no_match_short (r post : pystr) :
  List.length r < 11 -> stops post -> matches (r ++ post) = false.
Proof.
  intros Hlen [-> | [c [post' [-> Hc]]]]; unfold match_d11.
  - rewrite app_nil_r. rewrite firstn_all2 by lia.
    assert ((List.length r =? 11)%nat = false) as -> by (apply Nat.eqb_neq; lia).
    reflexivity.
  - rewrite firstn_app. rewrite (firstn_all2 r) by lia.
    destruct (11 - List.length r) as [|m] eqn:Hm; [lia|].
    simpl firstn. rewrite forallb_app. simpl. rewrite Hc.
    simpl. now rewrite !andb_false_r.
Qed.

(** Fewer than eleven digits before a stop yield nothing. *)
Lemma findall_short (r post : pystr) :
  List.length r < 11 -> stops post -> findall (r ++ post) = findall post.
Proof.
  induction r as [|x r IH]; intros Hlen Hpost; [reflexivity|].
  change ((x :: r) ++ post) with (x :: (r ++ post)).
  rewrite findall_cons.
  change (x :: (r ++ post)) with ((x :: r) ++ post).
  rewrite (no_match_short _ _ Hlen Hpost).
  apply IH; [simpl in Hlen; lia | assumption].
Qed.

(** Every capture is eleven characters that [\d] matches. *)
Lemma findall_from_captures (s : pystr) :
  forall k,
    Forall (fun d => List.length d = 11 /\ forallb digit d = true)
           (findall_from unicode_Nd k s).
Proof.
  induction s as [|c s IH]; intros k; [constructor|].
  destruct k as [|k]; cbn [findall_from]; [|apply IH].
  destruct (matches (c :: s)) eqn:Hm; [|apply IH].
  constructor; [|apply IH].
  unfold match_d11 in Hm. apply andb_true_iff in Hm as [Hl Hd].
  now apply Nat.eqb_eq in Hl.
Qed.

Lemma findall_captures (s : pystr) :
  Forall (fun d => List.length d = 11 /\ forallb digit d = true) (findall s).
Proof. apply findall_from_captures. Qed.

End Scanner.

(** ** Digit runs and what the scan takes from them *)

Section RunsAndBlocks.

Variable unicode_Nd : N -> bool.

Local Abbreviation digit := (is_digit unicode_Nd).
Local Abbreviation findall := (findall_d11 unicode_Nd).
Local Abbreviation stops := (stops unicode_Nd).

Lemma blocks_short (fuel : nat) (run : pystr) :
  List.length run < 11 -> blocks fuel run = [].
Proof.
  intros H. destruct fuel; [reflexivity|]. cbn [blocks].
  assert ((11 <=? List.length run)%nat = false) as ->
      by (apply Nat.leb_gt; lia).
  reflexivity.
Qed.

Lemma findall_run_fuel (post : pystr) (Hpost : stops post) :
  forall fuel run,
    List.length run <= fuel -> forallb digit run = true ->
    findall (run ++ post) = blocks fuel run ++ findall post.
Proof.
  induction fuel as [|fuel IH]; intros run Hlen Hd.
  - destruct run; [reflexivity | simpl in Hlen; lia].
  - cbn [blocks]. destruct (11 <=? List.length run)%nat eqn:Hge.
    + apply Nat.leb_le in Hge.
      rewrite <- (firstn_skipn 11 run) at 1. rewrite <- app_assoc.
      assert (Hall : forallb digit (firstn 11 run) = true /\
                     forallb digit (skipn 11 run) = true).
      { rewrite <- (firstn_skipn 11 run) in Hd.
        rewrite forallb_app in Hd. now apply andb_true_iff in Hd. }
      destruct Hall as [Hf Hs].
      rewrite findall_block; [|rewrite length_firstn; lia | assumption].
      rewrite <- app_comm_cons. f_equal.
      apply IH; [rewrite length_skipn; lia | assumption].
    + apply Nat.leb_gt in Hge. now apply findall_short.
Qed.

(** From a digit run that ends at a stop the scan takes the blocks of
    eleven. *)
Lemma findall_run (run post : pystr) :
  forallb digit run = true -> stops post ->
  findall (run ++ post) = blocks11 run ++ findall post.
Proof.
  intros Hd Hpost. now apply findall_run_fuel.
Qed.

Lemma flat_map_emit (run : pystr) :
  flat_map blocks11 (emit run) = blocks11 run.
Proof.
  destruct run; [reflexivity|]. simpl. apply app_nil_r.
Qed.

Lemma findall_runs_acc (s : pystr) :
  forall run,
    forallb digit run = true ->
    findall (run ++ s)
    = flat_map blocks11 (runs_acc unicode_Nd run s).
Proof.
  induction s as [|c s IH]; intros run Hrun; cbn [runs_acc].
  - rewrite flat_map_emit.
    rewrite (findall_run run []); [apply app_nil_r | assumption |].
    now left.
  - destruct (digit c) eqn:Hc.
    + rewrite <- IH.
      * now rewrite <- app_assoc.
      * rewrite forallb_app, Hrun. simpl. now rewrite Hc.
    + rewrite flat_map_app, flat_map_emit, <- (IH []) by reflexivity.
      rewrite findall_run; [|assumption | right; now exists c, s].
      simpl. now rewrite findall_non_digit.
Qed.

Lemma blocks_fuel (f1 : nat) :
  forall f2 run,
    List.length run <= f1 -> List.length run <= f2 ->
    blocks f1 run = blocks f2 run.
Proof.
  induction f1 as [|f1 IH]; intros f2 run H1 H2.
  - destruct run; [|simpl in H1; lia]. now destruct f2.
  - destruct f2 as [|f2].
    + destruct run; [reflexivity | simpl in H2; lia].
    + cbn [blocks]. destruct (11 <=? List.length run)%nat eqn:Hge; [|reflexivity].
      apply Nat.leb_le in Hge.
      f_equal. apply IH; rewrite length_skipn; lia.
Qed.

Lemma blocks11_long (run : pystr) :
  11 <= List.length run ->
  blocks11 run = firstn 11 run :: blocks11 (skipn 11 run).
Proof.
  intros Hge. unfold blocks11.
  destruct (List.length run) as [|n] eqn:Hn; [lia|].
  cbn [blocks]. rewrite Hn.
  assert ((11 <=? S n)%nat = true) as -> by (apply Nat.leb_le; lia).
  f_equal. apply blocks_fuel; rewrite length_skipn; lia.
Qed.

Lemma runs_acc_digits (s : pystr) :
  forall run,
    forallb digit run = true ->
    Forall (fun r => r <> [] /\ forallb digit r = true)
           (runs_acc unicode_Nd run s).
Proof.
  assert (Hemit : forall run, forallb digit run = true ->
            Forall (fun r => r <> [] /\ forallb digit r = true) (emit run)).
  { intros [|c run] H; constructor; [|constructor].
    split; [discriminate | assumption]. }
  induction s as [|c s IH]; intros run Hrun; cbn [runs_acc].
  - now apply Hemit.
  - destruct (digit c) eqn:Hc.
    + apply IH. rewrite forallb_app, Hrun. simpl. now rewrite Hc.
    + apply Forall_app. split; [now apply Hemit | now apply IH].
Qed.

(** C4, as the code has it: the scan takes, from every maximal digit
    run of the text, the consecutive blocks of eleven digits counted
    from the start of the run.  A run of fewer than eleven digits gives
    nothing, a run of eleven gives itself, and a longer run gives its
    leading blocks; only the fewer than eleven digits left at its end
    are dropped. *)
Theorem findall_takes_blocks_of_runs :
  (forall s, findall s = flat_map blocks11 (digit_runs unicode_Nd s))
  /\ (forall s, Forall (fun r => r <> [] /\ forallb digit r = true)
                      (digit_runs unicode_Nd s))
  /\ (forall run, List.length run < 11 -> blocks11 run = [])
  /\ (forall run, List.length run = 11 -> blocks11 run = [run])
  /\ (forall run, 11 <= List.length run ->
                  blocks11 run = firstn 11 run :: blocks11 (skipn 11 run)).
Proof.
  split; [|split; [|split; [|split]]].
  - intros s. apply (findall_runs_acc s []). reflexivity.
  - intros s. now apply runs_acc_digits.
  - intros run H. now apply blocks_short.
  - intros run H. rewrite blocks11_long by lia.
    rewrite <- H at 1. rewrite firstn_all. f_equal.
    apply blocks_short. rewrite length_skipn. lia.
  - apply blocks11_long.
Qed.

End RunsAndBlocks.

Lemma findall_takes_blocks_of_runs_witness :
  findall_d11 ascii_only (lit "12 0101234567801112345678999 0123")
  = [lit "01012345678"; lit "01112345678"]
  /\ blocks11 (lit "0123") = []
  /\ blocks11 (lit "01012345678") = [lit "01012345678"]
  /\ blocks11 (lit "010123456789")
     = firstn 11 (lit "010123456789") :: blocks11 (skipn 11 (lit "010123456789")).
Proof.
  destruct (findall_takes_blocks_of_runs ascii_only) as [H1 [_ [H2 [H3 H4]]]].
  split; [|split; [|split]].
  - rewrite H1. reflexivity.
  - apply H2. simpl. lia.
  - apply H3. reflexivity.
  - apply H4. simpl. lia.
Defined.

(** A maximal run of twelve digits is no run of eleven, and the scan
    takes a number out of it all the same. *)
Lemma twelve_digit_run_is_captured :
  digit_runs ascii_only (lit "010123456789") = [lit "010123456789"]
  /\ runs_of_eleven ascii_only (lit "010123456789") = []
  /\ findall_d11 ascii_only (lit "010123456789") = [lit "01012345678"]
  /\ scan ascii_only no_repr (collection [delta])
     = Ok ([mk_valid (JStr (lit "Delta")) (lit "01012345678") (JInt 4)], []).
Proof. repeat split; reflexivity. Qed.

(** ** The loops *)

Section Loops.

Variable unicode_Nd : N -> bool.
Variable py_repr : json -> pystr.

Local Abbreviation digit := (is_digit unicode_Nd).
Local Abbreviation valid := (is_valid_egyptian_mobile unicode_Nd).
Local Abbreviation findall := (findall_d11 unicode_Nd).
Local Abbreviation for_phones' := (for_phones unicode_Nd).
Local Abbreviation process_company' := (process_company unicode_Nd py_repr).
Local Abbreviation for_companies' := (for_companies unicode_Nd py_repr).
Local Abbreviation scan' := (scan unicode_Nd py_repr).
Local Abbreviation extract_mobile_numbers' :=
  (extract_mobile_numbers unicode_Nd py_repr).

Lemma shift_nil (st : state) : shift st (Ok ([], [])) = Ok st.
Proof. destruct st. simpl. now rewrite !app_nil_r. Qed.

Lemma shift_shift (st st2 : state) (r : result state) :
  shift st (shift st2 r) = shift (fst st ++ fst st2, snd st ++ snd st2) r.
Proof. destruct r; simpl; [|reflexivity]. now rewrite !app_assoc. Qed.

Lemma shift_empty (r : result state) : shift ([], []) r = r.
Proof. destruct r as [[v i]|e]; reflexivity. Qed.

(** The loops only append: a run from [st] is the run from empty lists
    put behind [st], and it raises exactly when that run raises. *)
Lemma for_phones_shift (company name : json) (phones : list pystr) :
  forall st,
    for_phones' company name phones st
    = shift st (for_phones' company name phones ([], [])).
Proof.
  induction phones as [|p phones IH]; intros st.
  - symmetry. apply shift_nil.
  - cbn [for_phones]. destruct (valid p).
    + destruct (py_get company (lit "id") (JStr (lit "N/A"))) as [id|e];
        [|reflexivity].
      cbn [bind fst snd]. rewrite IH. rewrite (IH ([] ++ _, [])).
      rewrite shift_shift. cbn [fst snd app]. now rewrite app_nil_r.
    + cbn [fst snd]. rewrite IH. rewrite (IH ([], [] ++ _)).
      rewrite shift_shift. cbn [fst snd app]. now rewrite app_nil_r.
Qed.

Lemma process_company_shift (company : json) (st : state) :
  process_company' st company = shift st (process_company' ([], []) company).
Proof.
  unfold process_company.
  destruct (py_contains (lit "contact_info") company) as [[|]|e];
    cbn [bind]; try reflexivity; [|symmetry; apply shift_nil].
  destruct (py_getitem company (lit "contact_info")) as [info|e];
    cbn [bind]; try reflexivity.
  destruct (py_contains (lit "phone") info) as [[|]|e];
    cbn [bind]; try reflexivity; [|symmetry; apply shift_nil].
  destruct (py_getitem info (lit "phone")) as [raw|e];
    cbn [bind]; try reflexivity.
  destruct (py_get company (lit "company_name_arabic") (JStr name_default))
    as [name|e]; cbn [bind]; try reflexivity.
  destruct (py_print (checking_line py_repr (py_str py_repr raw) name))
    as [[]|e]; cbn [bind]; try reflexivity.
  apply for_phones_shift.
Qed.

Lemma for_companies_shift (companies : list json) :
  forall st,
    for_companies' companies st = shift st (for_companies' companies ([], [])).
Proof.
  induction companies as [|c companies IH]; intros st.
  - symmetry. apply shift_nil.
  - cbn [for_companies]. rewrite process_company_shift.
    destruct (process_company' ([], []) c) as [added|e]; [|reflexivity].
    cbn [shift bind]. rewrite IH. rewrite (IH added).
    rewrite shift_shift. now destruct added.
Qed.

Lemma for_companies_app (xs ys : list json) :
  forall st,
    for_companies' (xs ++ ys) st
    = (st' <- for_companies' xs st ;; for_companies' ys st').
Proof.
  induction xs as [|x xs IH]; intros st; [reflexivity|].
  cbn [app for_companies].
  destruct (process_company' st x) as [st'|e]; [|reflexivity].
  cbn [bind]. apply IH.
Qed.

Lemma scan_collection (records : list json) :
  scan' (collection records) = for_companies' records ([], []).
Proof. reflexivity. Qed.

(** The inner loop on a record that is a mapping. *)
Lemma for_phones_mapping (fields : list (pystr * json)) (name : json)
      (phones : list pystr) :
  forall st,
    for_phones' (JDict fields) name phones st
    = Ok (fst st ++ map (fun p => mk_valid name p (id_of fields))
                        (filter valid phones),
          snd st ++ map (fun p => mk_invalid name p reason_invalid)
                        (filter (fun p => negb (valid p)) phones)).
Proof.
  induction phones as [|p phones IH]; intros st.
  - cbn. rewrite !app_nil_r. now destruct st.
  - cbn [for_phones filter]. destruct (valid p); cbn [negb].
    + unfold py_get. cbn [bind]. rewrite IH. cbn [fst snd map].
      now rewrite <- app_assoc.
    + rewrite IH. cbn [fst snd map]. now rewrite <- app_assoc.
Qed.

Lemma utf8_encodable_app (a b : pystr) :
  utf8_encodable (a ++ b) = utf8_encodable a && utf8_encodable b.
Proof. apply forallb_app. Qed.

(** Line 58 prints when the phone text and the name can be encoded. *)
Lemma checking_line_encodable (phone : pystr) (name : json) :
  utf8_encodable (checking_line py_repr phone name)
  = utf8_encodable phone && utf8_encodable (py_str py_repr name).
Proof.
  unfold checking_line. rewrite !utf8_encodable_app.
  assert (utf8_encodable checking_label = true) as -> by reflexivity.
  assert (utf8_encodable company_label = true) as -> by reflexivity.
  reflexivity.
Qed.

Lemma py_print_checking_line (phone : pystr) (name : json) :
  utf8_encodable phone = true ->
  utf8_encodable (py_str py_repr name) = true ->
  py_print (checking_line py_repr phone name) = Ok tt.
Proof.
  intros Hp Hn. unfold py_print.
  now rewrite checking_line_encodable, Hp, Hn.
Qed.

(** A record with a phone entry: the guard of line 54 holds, line 58
    prints, and the inner loop runs over the captures of the phone
    text. *)
Lemma process_company_with_phone (fields info : list (pystr * json))
      (raw : json) (st : state) :
  lookup (lit "contact_info") fields = Some (JDict info) ->
  lookup (lit "phone") info = Some raw ->
  process_company' st (JDict fields)
  = (_ <- py_print (checking_line py_repr (py_str py_repr raw)
                                  (name_of fields)) ;;
     for_phones' (JDict fields) (name_of fields)
                 (findall (py_str py_repr raw)) st).
Proof.
  intros Hinfo Hraw.
  unfold process_company, py_contains, py_getitem, py_get.
  rewrite Hinfo. cbn [bind]. rewrite Hraw. cbn [bind]. reflexivity.
Qed.

(** The same, for a record whose phone text and name can be printed. *)
Lemma process_company_printed (fields info : list (pystr * json))
      (raw : json) (st : state) :
  lookup (lit "contact_info") fields = Some (JDict info) ->
  lookup (lit "phone") info = Some raw ->
  utf8_encodable (py_str py_repr raw) = true ->
  utf8_encodable (py_str py_repr (name_of fields)) = true ->
  process_company' st (JDict fields)
  = for_phones' (JDict fields) (name_of fields)
                (findall (py_str py_repr raw)) st.
Proof.
  intros Hinfo Hraw Hp Hn.
  rewrite (process_company_with_phone _ _ _ st Hinfo Hraw).
  now rewrite py_print_checking_line.
Qed.

Lemma process_company_lacks_phone (company : json) (st : state) :
  lacks_phone company = true -> process_company' st company = Ok st.
Proof.
  unfold lacks_phone. destruct company as [| | | | | |fields]; try discriminate.
  unfold process_company. cbn [py_contains py_getitem].
  destruct (lookup (lit "contact_info") fields)
    as [[| | | | s | items | info]|];
    try discriminate; cbn [bind py_contains]; [| | |reflexivity].
  - intros H. apply negb_true_iff in H. now rewrite H.
  - intros H. apply negb_true_iff in H. now rewrite H.
  - destruct (lookup (lit "phone") info); [discriminate | reflexivity].
Qed.

Lemma findall_no_digit (pre rest : pystr) :
  no_digit unicode_Nd pre = true -> findall (pre ++ rest) = findall rest.
Proof.
  unfold no_digit. induction pre as [|c pre IH]; intros H; [reflexivity|].
  cbn [forallb] in H. apply andb_true_iff in H as [Hc Hpre].
  apply negb_true_iff in Hc.
  cbn [app]. rewrite findall_non_digit by assumption. now apply IH.
Qed.

(** One number between texts without digits is the one capture. *)
Lemma findall_single (pre d post : pystr) :
  no_digit unicode_Nd pre = true -> no_digit unicode_Nd post = true ->
  eleven_digits unicode_Nd d ->
  findall (pre ++ d ++ post) = [d].
Proof.
  intros Hpre Hpost [Hlen Hd].
  rewrite findall_no_digit by assumption.
  rewrite findall_block by assumption. f_equal.
  rewrite <- (app_nil_r post). now rewrite findall_no_digit.
Qed.

Lemma valid_of_eleven_digits (d : pystr) :
  eleven_digits unicode_Nd d ->
  valid d = existsb (fun prefix => startswith d prefix) valid_prefixes.
Proof.
  intros [Hlen Hd]. rewrite is_valid_of_digits by assumption.
  now rewrite Hlen.
Qed.

Lemma valid_prefix_iff (d : pystr) :
  eleven_digits unicode_Nd d -> (valid d = true <-> has_valid_prefix d).
Proof.
  intros H. rewrite valid_of_eleven_digits by assumption.
  apply existsb_prefix_iff.
Qed.

(** C2, as the code has it: the operation returns the valid list alone;
    the invalid list is built by the scan and printed, not returned.  A
    record whose phone is one run of eleven digits with a prefix outside
    010, 011, 012, 015, and whose phone and name line 58 can print, adds
    the entry (name, phone, reason) for that run to the invalid list of
    the scan and leaves the valid list as it was. *)
Theorem wrong_prefix_goes_to_invalid_list :
  (forall data,
      extract_mobile_numbers' (Ok data)
      = match scan' data with
        | Ok st => Ok (fst st)
        | Raise _ => Ok []
        end)
  /\ (forall (fields info : list (pystr * json)) (d : pystr) (st : state),
         lookup (lit "contact_info") fields = Some (JDict info) ->
         lookup (lit "phone") info = Some (JStr d) ->
         eleven_digits unicode_Nd d ->
         ~ has_valid_prefix d ->
         utf8_encodable d = true ->
         utf8_encodable (py_str py_repr (name_of fields)) = true ->
         process_company' st (JDict fields)
         = Ok (fst st,
               snd st ++ [mk_invalid (name_of fields) d reason_invalid])).
Proof.
  split.
  - intros data. unfold extract_mobile_numbers, try_block. cbn [bind].
    destruct (scan' data) as [st|e]; [reflexivity | destruct e; reflexivity].
  - intros fields info d st Hinfo Hraw Hd Hprefix Hpd Hpn.
    rewrite (process_company_printed _ _ _ st Hinfo Hraw Hpd Hpn).
    rewrite for_phones_mapping. cbn [py_str].
    assert (findall d = [d]) as ->.
    { pose proof (findall_single [] d [] eq_refl eq_refl Hd) as H.
      cbn [app] in H. now rewrite app_nil_r in H. }
    assert (valid d = false) as Hv.
    { apply not_true_is_false. intros Hv. apply Hprefix.
      now apply valid_prefix_iff. }
    cbn [filter]. rewrite Hv. cbn [negb map]. now rewrite app_nil_r.
Qed.

(** C3, as the code has it: a record whose phone text holds one valid
    number of eleven digits written without a break, with text free of
    digits before and after it, and whose phone text and name line 58
    can print, adds exactly one valid entry carrying that number, and no
    invalid one. *)
Theorem one_unbroken_number_gives_one_valid_entry
        (fields info : list (pystr * json)) (pre d post : pystr) (st : state) :
  lookup (lit "contact_info") fields = Some (JDict info) ->
  lookup (lit "phone") info = Some (JStr (pre ++ d ++ post)) ->
  no_digit unicode_Nd pre = true ->
  no_digit unicode_Nd post = true ->
  eleven_digits unicode_Nd d ->
  has_valid_prefix d ->
  utf8_encodable (pre ++ d ++ post) = true ->
  utf8_encodable (py_str py_repr (name_of fields)) = true ->
  process_company' st (JDict fields)
  = Ok (fst st ++ [mk_valid (name_of fields) d (id_of fields)], snd st).
Proof.
  intros Hinfo Hraw Hpre Hpost Hd Hprefix Hpp Hpn.
  rewrite (process_company_printed _ _ _ st Hinfo Hraw Hpp Hpn).
  rewrite for_phones_mapping. cbn [py_str].
  rewrite findall_single by assumption.
  assert (valid d = true) as Hv by now apply valid_prefix_iff.
  cbn [filter]. rewrite Hv. cbn [negb map]. now rewrite app_nil_r.
Qed.


(** *** What the lists hold *)

Local Abbreviation valid_ok :=
  (fun e : valid_entry =>
     eleven_digits unicode_Nd (v_phone e) /\ has_valid_prefix (v_phone e)).
Local Abbreviation invalid_ok :=
  (fun e : invalid_entry =>
     eleven_digits unicode_Nd (i_phone e) /\ ~ has_valid_prefix (i_phone e)).

Lemma for_phones_entries (company name : json) (phones : list pystr) :
  Forall (eleven_digits unicode_Nd) phones ->
  forall st st',
    for_phones' company name phones st = Ok st' ->
    Forall valid_ok (fst st) /\ Forall invalid_ok (snd st) ->
    Forall valid_ok (fst st') /\ Forall invalid_ok (snd st').
Proof.
  induction 1 as [|p phones Hp Hphones IH]; intros st st' Hrun [Hv Hi].
  - cbn in Hrun. injection Hrun as <-. now split.
  - cbn [for_phones] in Hrun. destruct (valid p) eqn:Hvalid.
    + destruct (py_get company (lit "id") (JStr (lit "N/A"))) as [id|e];
        [|discriminate].
      cbn [bind] in Hrun. apply (IH _ _ Hrun). cbn [fst snd].
      split; [|assumption]. apply Forall_app. split; [assumption|].
      constructor; [|constructor]. cbn [v_phone].
      split; [assumption | now apply valid_prefix_iff].
    + apply (IH _ _ Hrun). cbn [fst snd].
      split; [assumption|]. apply Forall_app. split; [assumption|].
      constructor; [|constructor]. cbn [i_phone].
      split; [assumption|]. intros Hprefix.
      apply valid_prefix_iff in Hprefix; congruence.
Qed.

Lemma process_company_entries (company : json) (st st' : state) :
  process_company' st company = Ok st' ->
  Forall valid_ok (fst st) /\ Forall invalid_ok (snd st) ->
  Forall valid_ok (fst st') /\ Forall invalid_ok (snd st').
Proof.
  unfold process_company. intros Hrun Hst.
  destruct (py_contains (lit "contact_info") company) as [[|]|e];
    cbn [bind] in Hrun; try discriminate;
    [|injection Hrun as <-; assumption].
  destruct (py_getitem company (lit "contact_info")) as [info|e];
    cbn [bind] in Hrun; try discriminate.
  destruct (py_contains (lit "phone") info) as [[|]|e];
    cbn [bind] in Hrun; try discriminate;
    [|injection Hrun as <-; assumption].
  destruct (py_getitem info (lit "phone")) as [raw|e];
    cbn [bind] in Hrun; try discriminate.
  destruct (py_get company (lit "company_name_arabic") (JStr name_default))
    as [name|e]; cbn [bind] in Hrun; try discriminate.
  destruct (py_print (checking_line py_repr (py_str py_repr raw) name))
    as [[]|e]; cbn [bind] in Hrun; try discriminate.
  eapply for_phones_entries; [apply findall_captures | exact Hrun | exact Hst].
Qed.

Lemma for_companies_entries (companies : list json) :
  forall st st',
    for_companies' companies st = Ok st' ->
    Forall valid_ok (fst st) /\ Forall invalid_ok (snd st) ->
    Forall valid_ok (fst st') /\ Forall invalid_ok (snd st').
Proof.
  induction companies as [|c companies IH]; intros st st' Hrun Hst.
  - cbn in Hrun. now injection Hrun as <-.
  - cbn [for_companies] in Hrun.
    destruct (process_company' st c) as [st1|e] eqn:Hc; [|discriminate].
    cbn [bind] in Hrun. apply (IH _ _ Hrun).
    now apply (process_company_entries _ _ _ Hc).
Qed.

Lemma scan_entries (data : json) (st : state) :
  scan' data = Ok st ->
  Forall valid_ok (fst st) /\ Forall invalid_ok (snd st).
Proof.
  unfold scan. intros Hrun.
  assert (Hnil : Forall valid_ok (fst (([], []) : state)) /\
                 Forall invalid_ok (snd (([], []) : state)))
    by (split; constructor).
  destruct (py_contains (lit "companies") data) as [[|]|e];
    cbn [bind] in Hrun; try discriminate;
    [|injection Hrun as <-; assumption].
  destruct (py_getitem data (lit "companies")) as [companies|e];
    cbn [bind] in Hrun; try discriminate.
  destruct (isinstance_list companies);
    [|injection Hrun as <-; assumption].
  destruct (py_iter companies) as [items|e];
    cbn [bind] in Hrun; try discriminate.
  now apply (for_companies_entries _ _ _ Hrun).
Qed.

Lemma extract_of_scan (data : json) :
  extract_mobile_numbers' (Ok data)
  = match scan' data with
    | Ok st => Ok (fst st)
    | Raise _ => Ok []
    end.
Proof.
  unfold extract_mobile_numbers, try_block. cbn [bind].
  destruct (scan' data) as [st|e]; [reflexivity | destruct e; reflexivity].
Qed.

(** C5, as the code has it: whatever the input, every phone of the
    valid list is eleven characters that [\d] matches, the digits 0-9
    or other decimal digits of Unicode, and starts with 010, 011, 012 or
    015, and every phone of the invalid list is eleven such characters
    and starts with none of them; so is every phone of the list the
    operation returns. *)
Theorem produced_phones_are_eleven_digits :
  (forall (data : json) (st : state),
      scan' data = Ok st ->
      Forall (fun e => eleven_digits unicode_Nd (v_phone e) /\
                       has_valid_prefix (v_phone e)) (fst st)
      /\ Forall (fun e => eleven_digits unicode_Nd (i_phone e) /\
                          ~ has_valid_prefix (i_phone e)) (snd st))
  /\ (forall (loaded : result json) (valid_numbers : list valid_entry),
         extract_mobile_numbers' loaded = Ok valid_numbers ->
         Forall (fun e => eleven_digits unicode_Nd (v_phone e) /\
                          has_valid_prefix (v_phone e)) valid_numbers).
Proof.
  split; [apply scan_entries|].
  intros [data|e] valid_numbers H.
  - rewrite extract_of_scan in H.
    destruct (scan' data) as [st|e] eqn:Hrun.
    + injection H as <-. now apply (scan_entries data).
    + injection H as <-. constructor.
  - assert (valid_numbers = []) as -> by (destruct e; now injection H).
    constructor.
Qed.

(** *** Order *)




(** *** Failure *)

Lemma scan_ill_shaped (data : json) :
  ~ well_shaped data ->
  scan' data = Ok ([], []) \/ exists e, scan' data = Raise e.
Proof.
  intros Hshape. unfold scan.
  destruct data as [| b | n | text | s | items | fields];
    try (right; eexists; reflexivity).
  - cbn [py_contains bind]. destruct (str_contains (lit "companies") s);
      [right; eexists; reflexivity | left; reflexivity].
  - cbn [py_contains bind].
    destruct (existsb (str_equals (lit "companies")) items);
      [right; eexists; reflexivity | left; reflexivity].
  - cbn [py_contains py_getitem bind].
    destruct (lookup (lit "companies") fields) as [v|] eqn:Hv;
      [|left; reflexivity].
    cbn [bind].
    destruct v; try (left; reflexivity).
    exfalso. apply Hshape. now exists fields, items.
Qed.

(** C7: the operation never raises, whatever [open] and [json.load]
    gave it; on data without the expected structure it returns the empty
    list and the scan, where it ends, has both lists empty; on the empty
    collection both lists are empty. *)
Theorem extraction_never_raises :
  (forall loaded : result json,
      exists valid_numbers,
        extract_mobile_numbers' loaded = Ok valid_numbers)
  /\ (forall e : exn, extract_mobile_numbers' (Raise e) = Ok [])
  /\ (forall data : json,
         ~ well_shaped data ->
         extract_mobile_numbers' (Ok data) = Ok []
         /\ (forall st, scan' data = Ok st -> st = ([], [])))
  /\ scan' (collection []) = Ok ([], [])
  /\ extract_mobile_numbers' (Ok (collection [])) = Ok [].
Proof.
  split; [|split; [|split; [|split]]].
  - intros [data|e].
    + rewrite extract_of_scan. destruct (scan' data); eexists; reflexivity.
    + exists []. now destruct e.
  - intros e. now destruct e.
  - intros data Hshape. rewrite extract_of_scan.
    destruct (scan_ill_shaped _ Hshape) as [-> | [e ->]].
    + split; [reflexivity | intros st H; now injection H].
    + split; [reflexivity | discriminate].
  - reflexivity.
  - reflexivity.
Qed.

(** The records without a phone that the guard of line 54 does step
    over: a mapping without a [contact_info] entry, or whose
    [contact_info] is a mapping without a [phone] entry or a list or
    string in which 'phone' does not occur.  Such a record leaves both
    lists as they are, and the collection gives what it gives without
    it. *)
Theorem record_without_phone_is_skipped
        (before after : list json) (r : json) (st : state) :
  lacks_phone r = true ->
  process_company' st r = Ok st
  /\ for_companies' (before ++ r :: after) st
     = for_companies' (before ++ after) st
  /\ scan' (collection (before ++ r :: after))
     = scan' (collection (before ++ after))
  /\ extract_mobile_numbers' (Ok (collection (before ++ r :: after)))
     = extract_mobile_numbers' (Ok (collection (before ++ after))).
Proof.
  intros Hr.
  assert (Hskip : forall st0,
             for_companies' (before ++ r :: after) st0
             = for_companies' (before ++ after) st0).
  { intros st0. rewrite !for_companies_app.
    destruct (for_companies' before st0) as [st1|e]; [|reflexivity].
    cbn [bind for_companies].
    now rewrite (process_company_lacks_phone r st1 Hr). }
  split; [now apply process_company_lacks_phone|].
  split; [apply Hskip|].
  assert (Hscan : scan' (collection (before ++ r :: after))
                  = scan' (collection (before ++ after)))
    by (rewrite !scan_collection; apply Hskip).
  split; [exact Hscan|].
  now rewrite !extract_of_scan, Hscan.
Qed.

(** C10: when a record raises in the middle of the scan, the operation
    returns the empty list, whatever the records before it had put into
    the valid list.  A record that is a number, a boolean or null
    raises. *)
Theorem failure_discards_collected_entries :
  (forall (before after : list json) (bad : json) (st : state) (e : exn),
      for_companies' before ([], []) = Ok st ->
      process_company' st bad = Raise e ->
      scan' (collection (before ++ bad :: after)) = Raise e
      /\ extract_mobile_numbers' (Ok (collection (before ++ bad :: after)))
         = Ok [])
  /\ (forall st n, process_company' st (JInt n) = Raise TypeError)
  /\ (forall st text, process_company' st (JFloat text) = Raise TypeError)
  /\ (forall st b, process_company' st (JBool b) = Raise TypeError)
  /\ (forall st, process_company' st JNull = Raise TypeError).
Proof.
  split; [|repeat split].
  intros before after bad st e Hbefore Hbad.
  assert (Hscan : scan' (collection (before ++ bad :: after)) = Raise e).
  { rewrite scan_collection, for_companies_app, Hbefore.
    cbn [bind for_companies]. now rewrite Hbad. }
  split; [exact Hscan|].
  now rewrite extract_of_scan, Hscan.
Qed.


End Loops.

Lemma wrong_prefix_goes_to_invalid_list_witness :
  extract_mobile_numbers ascii_only no_repr (Ok (collection [beta])) = Ok []
  /\ process_company ascii_only no_repr ([], []) beta
     = Ok ([], [mk_invalid (JStr (lit "Beta")) (lit "09912345678")
                           reason_invalid]).
Proof.
  destruct (wrong_prefix_goes_to_invalid_list ascii_only no_repr) as [H1 H2].
  split.
  - rewrite H1. reflexivity.
  - refine (H2 [ (lit "id", JInt 2);
                 (lit "company_name_arabic", JStr (lit "Beta"));
                 (lit "contact_info",
                  JDict [ (lit "phone", JStr (lit "09912345678")) ]) ]
               [ (lit "phone", JStr (lit "09912345678")) ]
               (lit "09912345678") ([], []) eq_refl eq_refl _ _
               eq_refl eq_refl).
    + split; reflexivity.
    + intros [prefix [rest [Hin Heq]]].
      destruct Hin as [<-|[<-|[<-|[<-|[]]]]]; discriminate.
Defined.

(** The caller receives the same value for the record of scenario B as
    for no record at all: the invalid entry is in the list of the scan
    only. *)
Lemma invalid_list_is_not_returned :
  extract_mobile_numbers ascii_only no_repr (Ok (collection [beta])) = Ok []
  /\ extract_mobile_numbers ascii_only no_repr (Ok (collection [])) = Ok []
  /\ scan ascii_only no_repr (collection [beta])
     = Ok ([], [mk_invalid (JStr (lit "Beta")) (lit "09912345678")
                           reason_invalid]).
Proof. repeat split; reflexivity. Qed.

Lemma one_unbroken_number_gives_one_valid_entry_witness :
  process_company ascii_only no_repr ([], [])
                  (record 8 "Eta" "tel: 01012345678 (mobile)")
  = Ok ([mk_valid (JStr (lit "Eta")) (lit "01012345678") (JInt 8)], []).
Proof.
  refine (one_unbroken_number_gives_one_valid_entry
            ascii_only no_repr
            [ (lit "id", JInt 8);
              (lit "company_name_arabic", JStr (lit "Eta"));
              (lit "contact_info",
               JDict [ (lit "phone",
                        JStr (lit "tel: 01012345678 (mobile)")) ]) ]
            [ (lit "phone", JStr (lit "tel: 01012345678 (mobile)")) ]
            (lit "tel: ") (lit "01012345678") (lit " (mobile)") ([], [])
            eq_refl eq_refl eq_refl eq_refl _ _ eq_refl eq_refl).
  - split; reflexivity.
  - exists (lit "010"), (lit "12345678"). split; [left|]; reflexivity.
Defined.

(** The number written with dashes holds no eleven digits in a row:
    nothing is captured, and the record adds no entry. *)
Lemma dashed_number_gives_no_entry :
  strip_non_digits ascii_only (lit "010-1234-5678") = lit "01012345678"
  /\ is_valid_egyptian_mobile ascii_only (lit "01012345678") = true
  /\ findall_d11 ascii_only (lit "010-1234-5678") = []
  /\ scan ascii_only no_repr (collection [dashed]) = Ok ([], [])
  /\ extract_mobile_numbers ascii_only no_repr (Ok (collection [dashed]))
     = Ok [].
Proof. repeat split; reflexivity. Qed.

Lemma produced_phones_are_eleven_digits_witness :
  scan ascii_only no_repr (collection [acme; beta])
  = Ok ([mk_valid (JStr (lit "Acme")) (lit "01123456789") (JInt 1)],
        [mk_invalid (JStr (lit "Beta")) (lit "09912345678") reason_invalid])
  /\ Forall (fun e => eleven_digits ascii_only (v_phone e) /\
                      has_valid_prefix (v_phone e))
            [mk_valid (JStr (lit "Acme")) (lit "01123456789") (JInt 1)]
  /\ Forall (fun e => eleven_digits ascii_only (i_phone e) /\
                      ~ has_valid_prefix (i_phone e))
            [mk_invalid (JStr (lit "Beta")) (lit "09912345678") reason_invalid]
  /\ Forall (fun e => eleven_digits ascii_only (v_phone e) /\
                      has_valid_prefix (v_phone e))
            [mk_valid (JStr (lit "Gamma")) (lit "01012345678") (JInt 3);
             mk_valid (JStr (lit "Gamma")) (lit "01112345678") (JInt 3)].
Proof.
  destruct (produced_phones_are_eleven_digits ascii_only no_repr) as [H1 H2].
  split; [reflexivity|].
  destruct (H1 (collection [acme; beta]) _ eq_refl) as [Hv Hi].
  split; [exact Hv|]. split; [exact Hi|].
  exact (H2 (Ok (collection [gamma])) _ eq_refl).
Defined.


Lemma extraction_never_raises_witness :
  ~ well_shaped (JInt 5)
  /\ extract_mobile_numbers ascii_only no_repr (Ok (JInt 5)) = Ok []
  /\ ~ well_shaped (JDict [ (lit "companies", JStr (lit "none")) ])
  /\ extract_mobile_numbers ascii_only no_repr
       (Ok (JDict [ (lit "companies", JStr (lit "none")) ])) = Ok []
  /\ (forall st,
         scan ascii_only no_repr
              (JDict [ (lit "companies", JStr (lit "none")) ]) = Ok st ->
         st = ([], [])).
Proof.
  assert (H5 : ~ well_shaped (JInt 5))
    by (intros [fields [items [H _]]]; discriminate).
  assert (Hd : ~ well_shaped (JDict [ (lit "companies", JStr (lit "none")) ])).
  { intros [fields [items [H Hl]]]. injection H as <-. discriminate. }
  destruct (extraction_never_raises ascii_only no_repr) as [_ [_ [H _]]].
  split; [exact H5|]. split; [exact (proj1 (H _ H5))|].
  split; [exact Hd|]. split; [exact (proj1 (H _ Hd))|].
  exact (proj2 (H _ Hd)).
Defined.

Lemma record_without_phone_is_skipped_witness :
  lacks_phone no_contact = true
  /\ extract_mobile_numbers ascii_only no_repr
       (Ok (collection ([acme] ++ no_contact :: [gamma])))
     = extract_mobile_numbers ascii_only no_repr
         (Ok (collection ([acme] ++ [gamma])))
  /\ lacks_phone (JDict [ (lit "contact_info", JStr (lit "n/a")) ]) = true
  /\ extract_mobile_numbers ascii_only no_repr
       (Ok (collection
              ([acme] ++ JDict [ (lit "contact_info", JStr (lit "n/a")) ]
                      :: [gamma])))
     = extract_mobile_numbers ascii_only no_repr
         (Ok (collection ([acme] ++ [gamma]))).
Proof.
  split; [reflexivity|]. split.
  - apply (record_without_phone_is_skipped
             ascii_only no_repr [acme] [gamma] no_contact ([], []) eq_refl).
  - split; [reflexivity|].
    apply (record_without_phone_is_skipped
             ascii_only no_repr [acme] [gamma]
             (JDict [ (lit "contact_info", JStr (lit "n/a")) ]) ([], [])
             eq_refl).
Defined.

(** With the Arabic-Indic digits in the table of [\d], a phone of 010
    and eight of them is captured and accepted: a valid phone that is
    not eleven digits 0-9. *)
Lemma valid_phone_with_arabic_indic_digits :
  scan arabic_indic no_repr (collection [eastern])
  = Ok ([mk_valid (JStr (lit "Iota")) eastern_phone (JInt 10)], [])
  /\ extract_mobile_numbers arabic_indic no_repr (Ok (collection [eastern]))
     = Ok [mk_valid (JStr (lit "Iota")) eastern_phone (JInt 10)]
  /\ List.length eastern_phone = 11
  /\ forallb ascii_digit eastern_phone = false.
Proof. repeat split; reflexivity. Qed.

(** C8: a record whose [contact_info] is null has no phone, and ought
    to be stepped over as the other records without a phone are; the
    test of line 54 raises on it instead, and the entry of the record
    before it is lost with it. *)
Lemma null_contact_info_loses_all_entries :
  extract_mobile_numbers ascii_only no_repr (Ok (collection [acme]))
  = Ok [mk_valid (JStr (lit "Acme")) (lit "01123456789") (JInt 1)]
  /\ process_company ascii_only no_repr
       ([mk_valid (JStr (lit "Acme")) (lit "01123456789") (JInt 1)], [])
       null_contact
     = Raise TypeError
  /\ extract_mobile_numbers ascii_only no_repr
       (Ok (collection [acme; null_contact]))
     = Ok [].
Proof. repeat split; reflexivity. Qed.

Lemma failure_discards_collected_entries_witness :
  for_companies ascii_only no_repr [acme] ([], [])
  = Ok ([mk_valid (JStr (lit "Acme")) (lit "01123456789") (JInt 1)], [])
  /\ scan ascii_only no_repr (collection ([acme] ++ JInt 7 :: [beta]))
     = Raise TypeError
  /\ extract_mobile_numbers ascii_only no_repr
       (Ok (collection ([acme] ++ JInt 7 :: [beta])))
     = Ok [].
Proof.
  split; [reflexivity|].
  apply (proj1 (failure_discards_collected_entries ascii_only no_repr)
               [acme] [beta] (JInt 7) _ TypeError eq_refl eq_refl).
Defined.

(** * Further properties of the validator and the scan *)

Section ValidatorAndScan.

Variable unicode_Nd : N -> bool.

Local Abbreviation digit := (is_digit unicode_Nd).
Local Abbreviation valid := (is_valid_egyptian_mobile unicode_Nd).
Local Abbreviation findall := (findall_d11 unicode_Nd).
Local Abbreviation strip := (strip_non_digits unicode_Nd).

(** X1: a character that is no digit, put anywhere into a string, does
    not change the answer of the validator. *)
Theorem is_valid_ignores_non_digits (a b : pystr) (c : N) :
  digit c = false -> valid (a ++ c :: b) = valid (a ++ b).
Proof.
  intros Hc. unfold is_valid_egyptian_mobile, strip_non_digits.
  rewrite !filter_app. cbn [filter]. now rewrite Hc.
Qed.

(** X2: the validator accepts no string of fewer than eleven
    characters, and none with more or fewer than eleven digits. *)
Theorem is_valid_needs_eleven_digits (s : pystr) :
  valid s = true -> List.length (strip s) = 11 /\ 11 <= List.length s.
Proof.
  unfold is_valid_egyptian_mobile. cbv zeta.
  destruct (List.length (strip s) =? 11)%nat eqn:Hlen; [|discriminate].
  intros _. apply Nat.eqb_eq in Hlen. split; [assumption|].
  rewrite <- Hlen. apply filter_length_le.
Qed.

Lemma findall_from_count (s : pystr) :
  forall k,
    11 * List.length (findall_from unicode_Nd k s) <= List.length s - k.
Proof.
  induction s as [|c s IH]; intros k; [simpl; lia|].
  destruct k as [|k]; cbn [findall_from].
  - destruct (match_d11 unicode_Nd (c :: s)) eqn:Hm.
    + unfold match_d11 in Hm. apply andb_true_iff in Hm as [Hlen _].
      apply Nat.eqb_eq in Hlen.
      rewrite length_firstn in Hlen.
      specialize (IH 10). cbn [List.length] in *. lia.
    + specialize (IH 0). cbn [List.length]. lia.
  - specialize (IH k). cbn [List.length]. lia.
Qed.

Lemma findall_of_short_text (s : pystr) :
  List.length s < 11 -> findall s = [].
Proof.
  intros Hs. pose proof (findall_from_count s 0) as H. fold (findall s) in H.
  destruct (findall s); [reflexivity | simpl in H; lia].
Qed.

(** X3: the captures do not overlap: a text of [n] characters gives at
    most [n / 11] of them, and a text of fewer than eleven characters
    gives none. *)
Theorem findall_count_bound (s : pystr) :
  11 * List.length (findall s) <= List.length s
  /\ (List.length s < 11 -> findall s = []).
Proof.
  pose proof (findall_from_count s 0) as H. fold (findall s) in H.
  split; [lia|].
  intros Hs. destruct (findall s); [reflexivity | simpl in H; lia].
Qed.

Lemma findall_split_fuel (c : N) (b : pystr) (Hc : digit c = false) :
  forall fuel a,
    List.length a <= fuel ->
    findall (a ++ c :: b) = findall a ++ findall b.
Proof.
  induction fuel as [|fuel IH]; intros a Hlen.
  - destruct a; [|simpl in Hlen; lia]. cbn [app].
    now rewrite findall_non_digit.
  - destruct a as [|x a]; [cbn [app]; now rewrite findall_non_digit|].
    cbn [List.length] in Hlen.
    destruct (match_d11 unicode_Nd (x :: a)) eqn:Hm.
    + apply matches_iff in Hm as Hm'.
      destruct Hm' as [d [rest [Heq [Hd1 Hd2]]]].
      rewrite Heq, <- app_assoc.
      rewrite (findall_block unicode_Nd d (rest ++ c :: b) Hd1 Hd2).
      rewrite (findall_block unicode_Nd d rest Hd1 Hd2).
      cbn [app]. f_equal. apply IH.
      apply (f_equal (@List.length N)) in Heq.
      rewrite length_app in Heq. cbn [List.length] in Heq. lia.
    + rewrite (findall_cons unicode_Nd x a), Hm.
      change ((x :: a) ++ c :: b) with (x :: (a ++ c :: b)).
      rewrite findall_cons.
      assert (match_d11 unicode_Nd (x :: a ++ c :: b) = false) as ->.
      { destruct (Nat.lt_ge_cases (List.length (x :: a)) 11) as [Hs | Hl].
        - apply (no_match_short unicode_Nd (x :: a) (c :: b) Hs).
          right. now exists c, b.
        - unfold match_d11 in *.
          change (x :: a ++ c :: b) with ((x :: a) ++ c :: b).
          rewrite firstn_app.
          assert (11 - List.length (x :: a) = 0) as -> by lia.
          cbn [firstn]. rewrite app_nil_r. exact Hm. }
      apply IH. lia.
Qed.

(** X4: a character that is no digit separates: the captures of a text
    are those of the part before it followed by those of the part
    behind it. *)
Theorem findall_splits_at_non_digit (a b : pystr) (c : N) :
  digit c = false -> findall (a ++ c :: b) = findall a ++ findall b.
Proof.
  intros Hc. now apply (findall_split_fuel c b Hc (List.length a)).
Qed.

Lemma findall_from_infix (s : pystr) :
  forall k,
    Forall (fun d => exists pre post, s = pre ++ d ++ post)
           (findall_from unicode_Nd k s).
Proof.
  assert (Hweaken : forall (c : N) (s' : pystr) (l : list pystr),
             Forall (fun d => exists pre post, s' = pre ++ d ++ post) l ->
             Forall (fun d => exists pre post, c :: s' = pre ++ d ++ post) l).
  { intros c s' l H. eapply Forall_impl; [|exact H].
    intros d [pre [post ->]]. now exists (c :: pre), post. }
  induction s as [|c s IH]; intros k; [constructor|].
  destruct k as [|k]; cbn [findall_from]; [|apply Hweaken, IH].
  destruct (match_d11 unicode_Nd (c :: s)); [|apply Hweaken, IH].
  constructor; [|apply Hweaken, IH].
  exists [], (skipn 11 (c :: s)). symmetry.
  exact (firstn_skipn 11 (c :: s)).
Qed.

(** X5: every capture stands in the text as it is: the scan never
    joins digits across other characters and never alters one. *)
Theorem findall_captures_are_substrings (s : pystr) :
  Forall (fun d => exists pre post, s = pre ++ d ++ post) (findall s).
Proof. apply findall_from_infix. Qed.

Lemma findall_concat (ds : list pystr) (rest : pystr) :
  Forall (eleven_digits unicode_Nd) ds ->
  findall (List.concat ds ++ rest) = ds ++ findall rest.
Proof.
  induction 1 as [|d ds [Hlen Hd] _ IH]; [reflexivity|].
  cbn [List.concat app]. rewrite <- app_assoc.
  rewrite findall_block by assumption. now rewrite IH.
Qed.

(** X6: numbers of eleven digits written one after the other, or each
    followed by one and the same character that is no digit, are read
    back by the scan as they were. *)
Theorem findall_reads_back_joined_numbers (ds : list pystr) (sep : N) :
  Forall (eleven_digits unicode_Nd) ds ->
  findall (List.concat ds) = ds
  /\ (digit sep = false ->
      findall (List.concat (map (fun d => d ++ [sep]) ds)) = ds).
Proof.
  intros Hds. split.
  - rewrite <- (app_nil_r (List.concat ds)), findall_concat by assumption.
    apply app_nil_r.
  - intros Hsep. induction Hds as [|d ds [Hlen Hd] _ IH]; [reflexivity|].
    cbn [map List.concat]. rewrite <- app_assoc.
    rewrite findall_block by assumption. cbn [app].
    rewrite findall_non_digit by assumption. now rewrite IH.
Qed.

End ValidatorAndScan.

(** * Further properties of the extraction *)

Section ExtractionMore.

Variable unicode_Nd : N -> bool.
Variable py_repr : json -> pystr.

Local Abbreviation valid := (is_valid_egyptian_mobile unicode_Nd).
Local Abbreviation findall := (findall_d11 unicode_Nd).
Local Abbreviation process_company' := (process_company unicode_Nd py_repr).
Local Abbreviation for_companies' := (for_companies unicode_Nd py_repr).
Local Abbreviation scan' := (scan unicode_Nd py_repr).
Local Abbreviation extract_mobile_numbers' :=
  (extract_mobile_numbers unicode_Nd py_repr).


(** X8: only a record that is a mapping, with a [contact_info] that is
    a mapping holding a [phone] entry, adds anything.  A record that is
    a list or a string is stepped over, unless it holds 'contact_info',
    and then it raises. *)
Theorem only_mappings_add_entries :
  (forall (company : json) (st st' : state),
      process_company' st company = Ok st' ->
      st' = st
      \/ exists fields info raw,
          company = JDict fields
          /\ lookup (lit "contact_info") fields = Some (JDict info)
          /\ lookup (lit "phone") info = Some raw)
  /\ (forall (items : list json) (st : state),
         process_company' st (JList items)
         = if existsb (str_equals (lit "contact_info")) items
           then Raise TypeError else Ok st)
  /\ (forall (s : pystr) (st : state),
         process_company' st (JStr s)
         = if str_contains (lit "contact_info") s
           then Raise TypeError else Ok st).
Proof.
  split; [|split].
  - intros company st st' H. unfold process_company in H.
    destruct company as [| b | n | text | s | items | fields];
      cbn [py_contains bind] in H; try discriminate.
    + destruct (str_contains (lit "contact_info") s);
        cbn [py_getitem bind] in H; [discriminate|].
      left. now injection H.
    + destruct (existsb (str_equals (lit "contact_info")) items);
        cbn [py_getitem bind] in H; [discriminate|].
      left. now injection H.
    + cbn [py_getitem] in H.
      destruct (lookup (lit "contact_info") fields) as [info|] eqn:Hinfo;
        cbn [bind] in H; [|left; now injection H].
      destruct info as [| b | n | text | s | items | info];
        cbn [py_contains bind] in H; try discriminate.
      * destruct (str_contains (lit "phone") s);
          cbn [py_getitem bind] in H; [discriminate|].
        left. now injection H.
      * destruct (existsb (str_equals (lit "phone")) items);
          cbn [py_getitem bind] in H; [discriminate|].
        left. now injection H.
      * destruct (lookup (lit "phone") info) as [raw|] eqn:Hraw;
          cbn [bind] in H; [|left; now injection H].
        right. now exists fields, info, raw.
  - intros items st. unfold process_company. cbn [py_contains bind].
    now destruct (existsb (str_equals (lit "contact_info")) items).
  - intros s st. unfold process_company. cbn [py_contains bind].
    now destruct (str_contains (lit "contact_info") s).
Qed.

(** X9: a phone whose text has fewer than eleven characters, as that of
    a phone that is null, true or false has, adds nothing; and when
    line 58 can print that text and the name, it raises nothing. *)
Theorem short_phone_text_adds_nothing
        (fields info : list (pystr * json)) (raw : json) (st : state) :
  lookup (lit "contact_info") fields = Some (JDict info) ->
  lookup (lit "phone") info = Some raw ->
  List.length (py_str py_repr raw) < 11 ->
  (forall st', process_company' st (JDict fields) = Ok st' -> st' = st)
  /\ (utf8_encodable (py_str py_repr raw) = true ->
      utf8_encodable (py_str py_repr (name_of fields)) = true ->
      process_company' st (JDict fields) = Ok st).
Proof.
  intros Hinfo Hraw Hshort. split.
  - intros st' H.
    rewrite (process_company_with_phone unicode_Nd py_repr _ _ _ st
                                        Hinfo Hraw) in H.
    destruct (py_print (checking_line py_repr (py_str py_repr raw)
                                      (name_of fields)))
      as [[]|e]; [|discriminate].
    cbn [bind] in H.
    rewrite (findall_of_short_text unicode_Nd _ Hshort) in H.
    cbn [for_phones] in H. now injection H.
  - intros Hp Hn.
    rewrite (process_company_printed unicode_Nd py_repr _ _ _ st
                                     Hinfo Hraw Hp Hn).
    now rewrite (findall_of_short_text unicode_Nd _ Hshort).
Qed.

(** X10: a collection put together from two gives entries exactly when
    both parts do, and then the lists of the first part followed by
    those of the second; it raises what the first part raises, or else
    what the second raises. *)
Theorem scan_of_joined_collections (xs ys : list json) :
  (forall e,
      scan' (collection xs) = Raise e ->
      scan' (collection (xs ++ ys)) = Raise e)
  /\ (forall st e,
         scan' (collection xs) = Ok st ->
         scan' (collection ys) = Raise e ->
         scan' (collection (xs ++ ys)) = Raise e)
  /\ (forall v i,
         scan' (collection (xs ++ ys)) = Ok (v, i) ->
         exists vx ix vy iy,
           scan' (collection xs) = Ok (vx, ix)
           /\ scan' (collection ys) = Ok (vy, iy)
           /\ v = vx ++ vy /\ i = ix ++ iy).
Proof.
  rewrite !scan_collection, for_companies_app.
  split; [|split].
  - intros e ->. reflexivity.
  - intros st e -> Hy. cbn [bind].
    now rewrite for_companies_shift, Hy.
  - intros v i H.
    destruct (for_companies' xs ([], [])) as [[vx ix]|e]; [|discriminate].
    cbn [bind] in H. rewrite for_companies_shift in H.
    destruct (for_companies' ys ([], [])) as [[vy iy]|e]; [|discriminate].
    cbn [shift fst snd] in H. injection H as <- <-.
    now exists vx, ix, vy, iy.
Qed.

(** X11: nothing is ever taken out of the lists or merged: records
    that come twice give their entries twice. *)
Theorem repeated_records_repeat_entries (xs : list json)
        (v : list valid_entry) (i : list invalid_entry) :
  scan' (collection xs) = Ok (v, i) ->
  scan' (collection (xs ++ xs)) = Ok (v ++ v, i ++ i)
  /\ extract_mobile_numbers' (Ok (collection (xs ++ xs))) = Ok (v ++ v).
Proof.
  intros H. rewrite scan_collection in H.
  assert (Hscan : scan' (collection (xs ++ xs)) = Ok (v ++ v, i ++ i)).
  { rewrite scan_collection, for_companies_app, H. cbn [bind].
    now rewrite for_companies_shift, H. }
  split; [exact Hscan|].
  now rewrite extract_of_scan, Hscan.
Qed.

End ExtractionMore.

(** * The output files *)

Section OutputFiles.

Variable unicode_Nd : N -> bool.
Variable py_repr : json -> pystr.
Variable writable : pystr -> bool.

Local Abbreviation for_companies' := (for_companies unicode_Nd py_repr).
Local Abbreviation process_company' := (process_company unicode_Nd py_repr).
Local Abbreviation scan' := (scan unicode_Nd py_repr).
Local Abbreviation extract_mobile_numbers' :=
  (extract_mobile_numbers unicode_Nd py_repr).
Local Abbreviation report_line' := (report_line py_repr).
Local Abbreviation report_lines' := (report_lines py_repr).
Local Abbreviation report_text' := (report_text py_repr).
Local Abbreviation save_results' := (save_results py_repr writable).
Local Abbreviation main' := (main unicode_Nd py_repr writable).

Local Abbreviation encodable_entries :=
  (Forall (fun number => entry_encodable py_repr number = true)).

(** *** What was printed can be written *)







(** *** The report *)

Lemma lit_encodable (text : string) : utf8_encodable (lit text) = true.
Proof.
  unfold utf8_encodable, lit. apply forallb_forall. intros c Hc.
  apply in_map_iff in Hc as [a [<- _]].
  pose proof (N_ascii_bounded a) as Ha.
  unfold is_surrogate. apply negb_true_iff, andb_false_iff. left.
  apply N.leb_gt. lia.
Qed.

Lemma report_line_encodable (i : nat) (number : valid_entry) :
  utf8_encodable (report_line' i number) = entry_encodable py_repr number.
Proof.
  unfold report_line, entry_encodable, str_of_nat, str_of_int.
  rewrite !utf8_encodable_app, !lit_encodable.
  assert (utf8_encodable nl = true) as -> by reflexivity.
  cbn [andb]. now rewrite andb_true_r.
Qed.

Lemma report_lines_app (xs ys : list valid_entry) :
  forall i,
    report_lines' i (xs ++ ys)
    = report_lines' i xs ++ report_lines' (i + List.length xs) ys.
Proof.
  induction xs as [|x xs IH]; intros i.
  - cbn [app report_lines List.length]. now rewrite Nat.add_0_r.
  - cbn [app report_lines List.length]. rewrite IH. do 3 f_equal. lia.
Qed.

Lemma report_lines_encodable (numbers : list valid_entry) :
  encodable_entries numbers ->
  forall i, Forall (fun t => utf8_encodable t = true) (report_lines' i numbers).
Proof.
  induction 1 as [|n numbers Hn _ IH]; intros i; constructor.
  - now rewrite report_line_encodable.
  - apply IH.
Qed.

(** Texts that can all be encoded are written one after the other. *)
Lemma written_app (texts rest : list pystr) :
  Forall (fun t => utf8_encodable t = true) texts ->
  written (texts ++ rest) = List.concat texts ++ written rest.
Proof.
  induction 1 as [|t texts Ht _ IH]; [reflexivity|].
  cbn [app written List.concat]. now rewrite Ht, IH, app_assoc.
Qed.

Lemma total_line_encodable (n : nat) :
  utf8_encodable (report_total_label ++ str_of_nat n ++ nl) = true.
Proof.
  unfold str_of_nat, str_of_int.
  now rewrite !utf8_encodable_app, lit_encodable.
Qed.

Lemma written_report_complete (numbers : list valid_entry) :
  encodable_entries numbers ->
  written (report_writes py_repr numbers) = report_text' numbers.
Proof.
  intros H. unfold report_writes, report_text.
  change ([report_title; report_rule] ++ ?l)
    with (report_title :: report_rule :: l).
  cbn [written].
  assert (utf8_encodable report_title = true) as -> by reflexivity.
  assert (utf8_encodable report_rule = true) as -> by reflexivity.
  rewrite written_app by now apply report_lines_encodable.
  cbn [written]. rewrite total_line_encodable.
  now rewrite app_nil_r.
Qed.

Lemma written_report_cut (done rest : list valid_entry) (bad : valid_entry) :
  encodable_entries done ->
  entry_encodable py_repr bad = false ->
  written (report_writes py_repr (done ++ bad :: rest))
  = report_title ++ report_rule ++ List.concat (report_lines' 1 done).
Proof.
  intros Hdone Hbad. unfold report_writes.
  change ([report_title; report_rule] ++ ?l)
    with (report_title :: report_rule :: l).
  cbn [written].
  assert (utf8_encodable report_title = true) as -> by reflexivity.
  assert (utf8_encodable report_rule = true) as -> by reflexivity.
  rewrite report_lines_app, <- app_assoc.
  rewrite written_app by now apply report_lines_encodable.
  cbn [report_lines app written].
  now rewrite report_line_encodable, Hbad, app_nil_r.
Qed.

Lemma report_lines_nth (numbers : list valid_entry) :
  forall i k number,
    nth_error numbers k = Some number ->
    nth_error (report_lines' i numbers) k = Some (report_line' (i + k) number).
Proof.
  induction numbers as [|n numbers IH]; intros i k number H.
  - destruct k; discriminate.
  - destruct k as [|k]; cbn [nth_error report_lines] in *.
    + injection H as <-. now rewrite Nat.add_0_r.
    + rewrite (IH (S i) k number H). f_equal. f_equal. lia.
Qed.

Lemma report_lines_length (numbers : list valid_entry) :
  forall i, List.length (report_lines' i numbers) = List.length numbers.
Proof.
  induction numbers as [|n numbers IH]; intros i; [reflexivity|].
  cbn [report_lines List.length]. now rewrite IH.
Qed.

(** X12: what [save_results] leaves in a file it could open.  When
    every name and phone can be encoded, it is the whole report: the
    title, the rule, one line for each entry in the order of the list,
    numbered from 1 upwards, the line numbered [k + 1] carrying the name
    and the phone of entry [k], and the total.  At the first entry that
    cannot be encoded the write raises, is caught, and the file ends
    after the lines of the entries before it, without the total. *)
Theorem save_results_writes_numbered_lines
        (numbers : list valid_entry) (output_file : pystr) (fs : files) :
  writable output_file = true ->
  (encodable_entries numbers ->
   read output_file (save_results' numbers output_file fs)
   = Some (report_title ++ report_rule
           ++ List.concat (report_lines' 1 numbers)
           ++ report_total_label ++ str_of_nat (List.length numbers) ++ nl))
  /\ (forall (done rest : list valid_entry) (bad : valid_entry),
         numbers = done ++ bad :: rest ->
         encodable_entries done ->
         entry_encodable py_repr bad = false ->
         read output_file (save_results' numbers output_file fs)
         = Some (report_title ++ report_rule
                 ++ List.concat (report_lines' 1 done)))
  /\ List.length (report_lines' 1 numbers) = List.length numbers
  /\ (forall k number,
         nth_error numbers k = Some number ->
         nth_error (report_lines' 1 numbers) k
         = Some (str_of_nat (S k) ++ lit ". "
                 ++ py_str py_repr (v_name number)
                 ++ lit " - " ++ v_phone number ++ nl)).
Proof.
  intros Hw.
  assert (Hread : read output_file (save_results' numbers output_file fs)
                  = Some (written (report_writes py_repr numbers))).
  { unfold save_results, write_file. rewrite Hw. cbn [read].
    now rewrite pystr_eqb_refl. }
  split; [|split; [|split]].
  - intros H. rewrite Hread, written_report_complete by assumption.
    reflexivity.
  - intros done rest bad -> Hdone Hbad.
    now rewrite Hread, written_report_cut.
  - apply report_lines_length.
  - intros k number H. now rewrite (report_lines_nth numbers 1 k number H).
Qed.

Lemma extract_entries (loaded : result json)
      (valid_numbers : list valid_entry) :
  extract_mobile_numbers' loaded = Ok valid_numbers ->
  Forall (fun e => eleven_digits unicode_Nd (v_phone e)) valid_numbers.
Proof.
  intros H. destruct loaded as [data|e].
  - rewrite extract_of_scan in H.
    destruct (scan' data) as [st|e] eqn:Hrun.
    + injection H as <-.
      destruct (scan_entries unicode_Nd py_repr data st Hrun) as [Hv _].
      eapply Forall_impl; [|exact Hv]. now intros e [He _].
    + injection H as <-. constructor.
  - assert (valid_numbers = []) as -> by (destruct e; now injection H).
    constructor.
Qed.

Lemma newline_is_no_digit (p : pystr) :
  forallb (is_digit unicode_Nd) p = true -> ~ In 10%N p.
Proof.
  intros H Hin. rewrite forallb_forall in H. now specialize (H _ Hin).
Qed.

Lemma numbers_only_length (numbers : list valid_entry) :
  Forall (fun e => eleven_digits unicode_Nd (v_phone e)) numbers ->
  List.length (numbers_only_text numbers) = 12 * List.length numbers.
Proof.
  unfold numbers_only_text.
  induction 1 as [|e numbers [Hlen _] _ IH]; [reflexivity|].
  cbn [map List.concat]. rewrite !length_app, IH, Hlen.
  cbn [List.length nl]. lia.
Qed.

Lemma numbers_only_newlines (numbers : list valid_entry) :
  Forall (fun e => eleven_digits unicode_Nd (v_phone e)) numbers ->
  count_occ N.eq_dec (numbers_only_text numbers) 10%N = List.length numbers.
Proof.
  unfold numbers_only_text.
  induction 1 as [|e numbers [_ Hd] _ IH]; [reflexivity|].
  cbn [map List.concat]. rewrite !count_occ_app, IH.
  apply newline_is_no_digit in Hd.
  apply (count_occ_not_In N.eq_dec) in Hd. rewrite Hd.
  reflexivity.
Qed.

Lemma firstn_app_exact (l1 l2 : pystr) (n : nat) :
  List.length l1 = n -> firstn n (l1 ++ l2) = l1.
Proof.
  intros <-. rewrite firstn_app, Nat.sub_diag, firstn_all. cbn [firstn].
  apply app_nil_r.
Qed.

Lemma skipn_app_exact (l1 l2 : pystr) (n : nat) :
  List.length l1 = n -> skipn n (l1 ++ l2) = l2.
Proof.
  intros <-. rewrite skipn_app, Nat.sub_diag, skipn_all. reflexivity.
Qed.

Lemma numbers_only_nth (numbers : list valid_entry) :
  Forall (fun e => eleven_digits unicode_Nd (v_phone e)) numbers ->
  forall k number,
    nth_error numbers k = Some number ->
    firstn 12 (skipn (12 * k) (numbers_only_text numbers))
    = v_phone number ++ nl.
Proof.
  unfold numbers_only_text.
  induction 1 as [|e numbers [Hlen _] _ IH]; intros k number H.
  - destruct k; discriminate.
  - assert (Hline : List.length (v_phone e ++ nl) = 12)
      by (rewrite length_app, Hlen; reflexivity).
    cbn [map List.concat].
    destruct k as [|k]; cbn [nth_error] in H.
    + injection H as <-. replace (12 * 0) with 0 by lia.
      cbn [skipn]. now apply firstn_app_exact.
    + replace (12 * S k) with (12 * k + 12) by lia.
      rewrite <- skipn_skipn. rewrite (skipn_app_exact _ _ _ Hline).
      now apply IH.
Qed.

(** X13: the file of numbers that [main] writes from what the
    extraction returns holds twelve characters for each entry: the
    eleven digits of the phone of entry [k] from position [12 * k] on and
    a newline behind them; it has as many newlines as entries. *)
Theorem numbers_only_file_layout (loaded : result json)
        (valid_numbers : list valid_entry) :
  extract_mobile_numbers' loaded = Ok valid_numbers ->
  List.length (numbers_only_text valid_numbers)
  = 12 * List.length valid_numbers
  /\ count_occ N.eq_dec (numbers_only_text valid_numbers) 10%N
     = List.length valid_numbers
  /\ (forall k number,
         nth_error valid_numbers k = Some number ->
         firstn 12 (skipn (12 * k) (numbers_only_text valid_numbers))
         = v_phone number ++ nl).
Proof.
  intros H. apply extract_entries in H.
  split; [now apply numbers_only_length|].
  split; [now apply numbers_only_newlines | now apply numbers_only_nth].
Qed.

Lemma main_without_valid_numbers (file_exists : bool) (loaded : result json)
      (fs : files) :
  extract_mobile_numbers' loaded = Ok [] ->
  main' file_exists loaded fs = (fs, None).
Proof.
  intros H. unfold main. rewrite H. now destruct file_exists.
Qed.

Lemma extract_ill_shaped (data : json) :
  ~ well_shaped data -> extract_mobile_numbers' (Ok data) = Ok [].
Proof.
  intros Hshape. rewrite extract_of_scan.
  now destruct (scan_ill_shaped unicode_Nd py_repr data Hshape)
    as [-> | [e ->]].
Qed.

Lemma extract_raising_record (before after : list json) (bad : json)
      (st : state) (e : exn) :
  for_companies' before ([], []) = Ok st ->
  process_company' st bad = Raise e ->
  extract_mobile_numbers' (Ok (collection (before ++ bad :: after))) = Ok [].
Proof.
  intros Hbefore Hbad.
  rewrite extract_of_scan, scan_collection, for_companies_app, Hbefore.
  cbn [bind for_companies]. now rewrite Hbad.
Qed.

(** X14: [main] writes no file and raises nothing when the input file
    is not there, cannot be read or parsed, has not the expected
    structure, holds a record that raises, or gives no valid number:
    the files of an earlier run stay as they are. *)
Theorem main_leaves_files_alone (fs : files) :
  (forall loaded, main' false loaded fs = (fs, None))
  /\ (forall e, main' true (Raise e) fs = (fs, None))
  /\ (forall data, ~ well_shaped data -> main' true (Ok data) fs = (fs, None))
  /\ (forall (before after : list json) (bad : json) (st : state) (e : exn),
         for_companies' before ([], []) = Ok st ->
         process_company' st bad = Raise e ->
         main' true (Ok (collection (before ++ bad :: after))) fs = (fs, None))
  /\ (forall data invalid,
         scan' data = Ok ([], invalid) -> main' true (Ok data) fs = (fs, None)).
Proof.
  split; [|split; [|split; [|split]]].
  - reflexivity.
  - intros e. apply main_without_valid_numbers. now destruct e.
  - intros data H. now apply main_without_valid_numbers, extract_ill_shaped.
  - intros before after bad st e Hbefore Hbad.
    apply main_without_valid_numbers.
    now apply (extract_raising_record before after bad st e).
  - intros data invalid H. apply main_without_valid_numbers.
    now rewrite extract_of_scan, H.
Qed.




End OutputFiles.

Lemma is_valid_ignores_non_digits_witness :
  is_digit ascii_only 32 = false
  /\ is_valid_egyptian_mobile ascii_only (lit "010" ++ 32%N :: lit "1234 5678")
     = is_valid_egyptian_mobile ascii_only (lit "010" ++ lit "1234 5678").
Proof.
  split; [reflexivity|].
  apply (is_valid_ignores_non_digits ascii_only (lit "010") (lit "1234 5678")
                                     32 eq_refl).
Defined.

Lemma is_valid_needs_eleven_digits_witness :
  is_valid_egyptian_mobile ascii_only (lit "010-1234-5678") = true
  /\ List.length (strip_non_digits ascii_only (lit "010-1234-5678")) = 11
  /\ 11 <= List.length (lit "010-1234-5678").
Proof.
  split; [reflexivity|].
  apply (is_valid_needs_eleven_digits ascii_only (lit "010-1234-5678") eq_refl).
Defined.

Lemma findall_count_bound_witness :
  List.length (lit "0101234567") < 11
  /\ findall_d11 ascii_only (lit "0101234567") = [].
Proof.
  assert (H : List.length (lit "0101234567") < 11) by (simpl; lia).
  split; [exact H|].
  apply (proj2 (findall_count_bound ascii_only (lit "0101234567")) H).
Defined.

Lemma findall_splits_at_non_digit_witness :
  is_digit ascii_only 47 = false
  /\ findall_d11 ascii_only (lit "01012345678" ++ 47%N :: lit "0111234567")
     = findall_d11 ascii_only (lit "01012345678")
       ++ findall_d11 ascii_only (lit "0111234567").
Proof.
  split; [reflexivity|].
  apply (findall_splits_at_non_digit ascii_only (lit "01012345678")
                                     (lit "0111234567") 47 eq_refl).
Defined.

Lemma findall_reads_back_joined_numbers_witness :
  Forall (eleven_digits ascii_only) [lit "01012345678"; lit "09912345678"]
  /\ findall_d11 ascii_only
       (List.concat [lit "01012345678"; lit "09912345678"])
     = [lit "01012345678"; lit "09912345678"]
  /\ findall_d11 ascii_only
       (List.concat (map (fun d => d ++ [44%N])
                         [lit "01012345678"; lit "09912345678"]))
     = [lit "01012345678"; lit "09912345678"].
Proof.
  assert (H : Forall (eleven_digits ascii_only)
                     [lit "01012345678"; lit "09912345678"])
    by (repeat constructor).
  split; [exact H|].
  destruct (findall_reads_back_joined_numbers ascii_only _ 44 H) as [H1 H2].
  split; [exact H1 | exact (H2 eq_refl)].
Defined.


Lemma only_mappings_add_entries_witness :
  process_company ascii_only no_repr ([], []) (JStr (lit "n/a")) = Ok ([], [])
  /\ ((([], []) : state) = ([], [])
      \/ exists fields info raw,
          JStr (lit "n/a") = JDict fields
          /\ lookup (lit "contact_info") fields = Some (JDict info)
          /\ lookup (lit "phone") info = Some raw).
Proof.
  split; [reflexivity|].
  apply (proj1 (only_mappings_add_entries ascii_only no_repr)
               (JStr (lit "n/a")) ([], []) ([], []) eq_refl).
Defined.

Lemma short_phone_text_adds_nothing_witness :
  process_company ascii_only no_repr ([], [])
    (JDict [ (lit "contact_info", JDict [ (lit "phone", JNull) ]) ])
  = Ok ([], []).
Proof.
  refine (proj2 (short_phone_text_adds_nothing
                   ascii_only no_repr
                   [ (lit "contact_info", JDict [ (lit "phone", JNull) ]) ]
                   [ (lit "phone", JNull) ] JNull ([], []) eq_refl eq_refl _)
                eq_refl eq_refl).
  simpl. lia.
Defined.

Lemma scan_of_joined_collections_witness :
  scan ascii_only no_repr (collection ([acme] ++ [JInt 7])) = Raise TypeError
  /\ exists vx ix vy iy,
      scan ascii_only no_repr (collection [acme]) = Ok (vx, ix)
      /\ scan ascii_only no_repr (collection [beta]) = Ok (vy, iy)
      /\ [mk_valid (JStr (lit "Acme")) (lit "01123456789") (JInt 1)]
         = vx ++ vy
      /\ [mk_invalid (JStr (lit "Beta")) (lit "09912345678") reason_invalid]
         = ix ++ iy.
Proof.
  split.
  - apply (proj1 (proj2 (scan_of_joined_collections
                           ascii_only no_repr [acme] [JInt 7]))
                 _ TypeError eq_refl eq_refl).
  - apply (proj2 (proj2 (scan_of_joined_collections
                           ascii_only no_repr [acme] [beta]))
                 _ _ eq_refl).
Defined.

Lemma repeated_records_repeat_entries_witness :
  extract_mobile_numbers ascii_only no_repr (Ok (collection ([acme] ++ [acme])))
  = Ok ([mk_valid (JStr (lit "Acme")) (lit "01123456789") (JInt 1)]
        ++ [mk_valid (JStr (lit "Acme")) (lit "01123456789") (JInt 1)]).
Proof.
  apply (proj2 (repeated_records_repeat_entries
                  ascii_only no_repr [acme] _ [] eq_refl)).
Defined.

Lemma save_results_writes_numbered_lines_witness :
  read default_output_file
       (save_results no_repr all_writable
          [mk_valid (JStr (lit "Acme")) (lit "01123456789") (JInt 1);
           mk_valid (JStr (lit "Gamma")) (lit "01012345678") (JInt 3)]
          default_output_file stale)
  = Some (report_title ++ report_rule
          ++ (lit "1. Acme - 01123456789" ++ nl)
          ++ (lit "2. Gamma - 01012345678" ++ nl)
          ++ report_total_label ++ lit "2" ++ nl)
  /\ read default_output_file
          (save_results no_repr all_writable
             ([mk_valid (JStr (lit "Acme")) (lit "01123456789") (JInt 1)]
              ++ mk_valid (JStr [55357%N]) (lit "01012345678") (JInt 11)
              :: [mk_valid (JStr (lit "Gamma")) (lit "01012345678") (JInt 3)])
             default_output_file stale)
     = Some (report_title ++ report_rule
             ++ lit "1. Acme - 01123456789" ++ nl).
Proof.
  split.
  - refine (proj1 (save_results_writes_numbered_lines
                     no_repr all_writable
                     [mk_valid (JStr (lit "Acme")) (lit "01123456789") (JInt 1);
                      mk_valid (JStr (lit "Gamma")) (lit "01012345678") (JInt 3)]
                     default_output_file stale eq_refl) _).
    repeat constructor.
  - refine (proj1 (proj2 (save_results_writes_numbered_lines
                            no_repr all_writable _
                            default_output_file stale eq_refl))
                  [mk_valid (JStr (lit "Acme")) (lit "01123456789") (JInt 1)]
                  [mk_valid (JStr (lit "Gamma")) (lit "01012345678") (JInt 3)]
                  (mk_valid (JStr [55357%N]) (lit "01012345678") (JInt 11))
                  eq_refl _ eq_refl).
    repeat constructor.
Defined.

Lemma numbers_only_file_layout_witness :
  numbers_only_text
    [mk_valid (JStr (lit "Acme")) (lit "01123456789") (JInt 1);
     mk_valid (JStr (lit "Gamma")) (lit "01012345678") (JInt 3);
     mk_valid (JStr (lit "Gamma")) (lit "01112345678") (JInt 3)]
  = lit "01123456789" ++ nl ++ lit "01012345678" ++ nl
    ++ lit "01112345678" ++ nl
  /\ List.length
       (numbers_only_text
          [mk_valid (JStr (lit "Acme")) (lit "01123456789") (JInt 1);
           mk_valid (JStr (lit "Gamma")) (lit "01012345678") (JInt 3);
           mk_valid (JStr (lit "Gamma")) (lit "01112345678") (JInt 3)])
     = 12 * 3.
Proof.
  split; [reflexivity|].
  apply (proj1 (numbers_only_file_layout
                  ascii_only no_repr (Ok (collection [acme; gamma])) _
                  eq_refl)).
Defined.

Lemma main_leaves_files_alone_witness :
  ~ well_shaped (JList [acme])
  /\ main ascii_only no_repr all_writable true (Ok (JList [acme])) stale
     = (stale, None)
  /\ main ascii_only no_repr all_writable true
          (Ok (collection ([acme] ++ JNull :: [gamma]))) stale
     = (stale, None)
  /\ main ascii_only no_repr all_writable true (Ok (collection [beta])) stale
     = (stale, None)
  /\ main ascii_only no_repr all_writable true
          (Ok (collection ([acme] ++ surrogate_name :: [gamma]))) stale
     = (stale, None).
Proof.
  assert (Hshape : ~ well_shaped (JList [acme]))
    by (intros [fields [items [H _]]]; discriminate).
  destruct (main_leaves_files_alone ascii_only no_repr all_writable stale)
    as [_ [_ [H3 [H4 H5]]]].
  split; [exact Hshape|]. split; [exact (H3 _ Hshape)|].
  split; [|split].
  - exact (H4 [acme] [gamma] JNull _ TypeError eq_refl eq_refl).
  - exact (H5 (collection [beta]) _ eq_refl).
  - exact (H4 [acme] [gamma] surrogate_name _ UnicodeEncodeError
              eq_refl eq_refl).
Defined.


(** A name that is a lone surrogate stops the print of line 58: the
    record raises, and the operation returns the empty list, the entry
    of the record before it included. *)
Lemma unprintable_name_loses_all_entries :
  process_company ascii_only no_repr
    ([mk_valid (JStr (lit "Acme")) (lit "01123456789") (JInt 1)], [])
    surrogate_name
  = Raise UnicodeEncodeError
  /\ extract_mobile_numbers ascii_only no_repr
       (Ok (collection [acme; surrogate_name]))
     = Ok [].
Proof. split; reflexivity. Qed.
